(** * AI scheduler backend: the recommendation and persona-update agents

    A shallow embedding of [ai_engine.py], [crud.py], [schemas.py] and
    [models.py], followed by the properties of the orchestration core.

    Conventions of the embedding:
    - Python [str] values are [string]s, read as the UTF-8 bytes of the text;
      [strip] and [lower] act on the ASCII range (Hangul has no case and the
      keyword list is ASCII or Hangul).
    - naive [datetime] values are records of their civil fields; arithmetic on
      them goes through the proleptic Gregorian ordinal, as in [datetime.py].
    - exceptions are values of [pyexn]; a call that may raise returns a
      [result].
    - the database session, the search provider, the generative model and the
      clock are explicit: the store is threaded as state, the services are
      fields of a [World], and each call of a web tool, each request to the
      search provider and each request to the model leaves an [event] in a
      call log.  The [print] lines of the source are left out. *)

From Stdlib Require Import String Ascii ZArith List Bool Lia.
From Stdlib Require Import DecimalString Permutation Sorted.
Import ListNotations.
Open Scope string_scope.
Open Scope Z_scope.

(** ** Python text operations *)
Module PyStr.

(** The double quote and the line feed, as one-character strings. *)
Definition dq : string := String (ascii_of_nat 34) EmptyString.
Definition nl : string := String (ascii_of_nat 10) EmptyString.

(** [str.isspace] on one ASCII character: TAB..CR, FS..US and the space. *)
Definition isspace (c : ascii) : bool :=
  let n := nat_of_ascii c in
  (((9 <=? n) && (n <=? 13)) || ((28 <=? n) && (n <=? 32)))%nat.

Fixpoint lstrip (s : string) : string :=
  match s with
  | EmptyString => EmptyString
  | String c r => if isspace c then lstrip r else s
  end.

Fixpoint rstrip (s : string) : string :=
  match s with
  | EmptyString => EmptyString
  | String c r =>
      match rstrip r with
      | EmptyString => if isspace c then EmptyString else String c EmptyString
      | r' => String c r'
      end
  end.

(** [s.strip()] *)
Definition strip (s : string) : string := rstrip (lstrip s).

(** [s.replace(old, new)] for a non-empty [old]: occurrences are replaced
    left to right without overlap.  [skip] counts the characters of a match
    still to be dropped. *)
Fixpoint replace_from (old new : string) (skip : nat) (s : string) : string :=
  match s with
  | EmptyString => EmptyString
  | String c r =>
      match skip with
      | S k => replace_from old new k r
      | O =>
          if prefix old s
          then new ++ replace_from old new (String.length old - 1) r
          else String c (replace_from old new 0 r)
      end
  end.

Definition replace (old new s : string) : string := replace_from old new 0 s.

(** [needle in s] *)
Fixpoint contains (needle s : string) : bool :=
  prefix needle s ||
  match s with
  | EmptyString => false
  | String _ r => contains needle r
  end.

Definition lower_ascii (c : ascii) : ascii :=
  let n := nat_of_ascii c in
  if ((65 <=? n) && (n <=? 90))%nat then ascii_of_nat (n + 32) else c.


Fixpoint map_chars (f : ascii -> ascii) (s : string) : string :=
  match s with
  | EmptyString => EmptyString
  | String c r => String (f c) (map_chars f r)
  end.

(** [s.lower()] and [s.upper()] *)
Definition lower (s : string) : string := map_chars lower_ascii s.

(** [sep.join(parts)] *)
Definition join (sep : string) (parts : list string) : string :=
  String.concat sep parts.

(** [str(n)] for an [int] *)
Definition of_int (n : Z) : string := NilZero.string_of_int (Z.to_int n).

(** Decimal rendering with at least [width] digits, as [%04d], for [n >= 0]. *)
Fixpoint zeros (k : nat) : string :=
  match k with
  | O => EmptyString
  | S k' => String "0" (zeros k')
  end.

Definition pad_int (width : nat) (n : Z) : string :=
  let d := of_int n in
  zeros (width - String.length d) ++ d.

(** Truth value of an optional string: [None] and [''] are falsy. *)
Definition truthy (o : option string) : bool :=
  match o with
  | None => false
  | Some EmptyString => false
  | Some _ => true
  end.

Definition is_digit (c : ascii) : bool :=
  let n := nat_of_ascii c in ((48 <=? n) && (n <=? 57))%nat.

Definition digit_val (c : ascii) : Z := Z.of_nat (nat_of_ascii c) - 48.

End PyStr.

(** ** Naive datetimes ([datetime.datetime] without tzinfo) *)
Module Datetime.

Record datetime : Type := mk_datetime {
  year : Z;
  month : Z;
  day : Z;
  hour : Z;
  minute : Z;
  second : Z;
  microsecond : Z
}.

Definition is_leap (y : Z) : bool :=
  (y mod 4 =? 0) && (negb (y mod 100 =? 0) || (y mod 400 =? 0)).

Definition days_in_month (y m : Z) : Z :=
  if m =? 2 then (if is_leap y then 29 else 28)
  else if (m =? 4) || (m =? 6) || (m =? 9) || (m =? 11) then 30
  else 31.

(** Days before the first of month [m] in a common year. *)
Definition days_before_month_table (m : Z) : Z :=
  match m with
  | 1 => 0 | 2 => 31 | 3 => 59 | 4 => 90 | 5 => 120 | 6 => 151
  | 7 => 181 | 8 => 212 | 9 => 243 | 10 => 273 | 11 => 304 | 12 => 334
  | _ => 0
  end.

Definition days_before_year (y : Z) : Z :=
  let y1 := y - 1 in y1 * 365 + y1 / 4 - y1 / 100 + y1 / 400.

Definition days_before_month (y m : Z) : Z :=
  days_before_month_table m + (if (2 <? m) && is_leap y then 1 else 0).

(** [_ymd2ord]: 0001-01-01 is day 1. *)
Definition ymd2ord (y m d : Z) : Z :=
  days_before_year y + days_before_month y m + d.

(** [_ord2ymd] *)
Definition ord2ymd (ord : Z) : Z * Z * Z :=
  let n := ord - 1 in
  let n400 := n / 146097 in
  let n := n mod 146097 in
  let n100 := n / 36524 in
  let n := n mod 36524 in
  let n4 := n / 1461 in
  let n := n mod 1461 in
  let n1 := n / 365 in
  let n := n mod 365 in
  let y := n400 * 400 + 1 + n100 * 100 + n4 * 4 + n1 in
  if (n1 =? 4) || (n100 =? 4) then (y - 1, 12, 31)
  else
    let leapyear := (n1 =? 3) && (negb (n4 =? 24) || (n100 =? 3)) in
    let m := Z.shiftr (n + 50) 5 in
    let preceding :=
      days_before_month_table m + (if (2 <? m) && leapyear then 1 else 0) in
    if n <? preceding then
      let m' := m - 1 in
      let dim :=
        (if m' =? 2 then 28
         else if (m' =? 4) || (m' =? 6) || (m' =? 9) || (m' =? 11) then 30
         else 31) + (if (m' =? 2) && leapyear then 1 else 0) in
      (y, m', n - (preceding - dim) + 1)
    else (y, m, n - preceding + 1).

Definition toordinal (d : datetime) : Z := ymd2ord (year d) (month d) (day d).

Definition us_per_day : Z := 86400 * 1000000.

(** Microseconds since the start of day 0 of the ordinal count. *)
Definition to_micro (d : datetime) : Z :=
  toordinal d * us_per_day
  + ((hour d * 60 + minute d) * 60 + second d) * 1000000
  + microsecond d.

(** [(a - b).days]: timedeltas are normalised with a seconds part in
    [0, 86400), so the day count is the floor of the difference. *)
Definition sub_days (a b : datetime) : Z := (to_micro a - to_micro b) / us_per_day.

(** [d - timedelta(days=k)] *)
Definition minus_days (d : datetime) (k : Z) : datetime :=
  let '(y, m, dd) := ord2ymd (toordinal d - k) in
  mk_datetime y m dd (hour d) (minute d) (second d) (microsecond d).

(** Comparison of naive datetimes. *)
Definition ge (a b : datetime) : bool := to_micro b <=? to_micro a.
Definition le (a b : datetime) : bool := to_micro a <=? to_micro b.

(** [d.strftime('%Y-%m-%d')] and [d.strftime('%Y-%m-%d %H:%M')] *)
Definition strftime_ymd (d : datetime) : string :=
  PyStr.pad_int 4 (year d) ++ "-" ++ PyStr.pad_int 2 (month d) ++ "-"
  ++ PyStr.pad_int 2 (day d).

Definition strftime_ymd_hm (d : datetime) : string :=
  strftime_ymd d ++ " " ++ PyStr.pad_int 2 (hour d) ++ ":"
  ++ PyStr.pad_int 2 (minute d).

(** Reading [k] decimal digits off the front of a string. *)
Fixpoint take_digits (k : nat) (acc : Z) (s : string) : option (Z * string) :=
  match k with
  | O => Some (acc, s)
  | S k' =>
      match s with
      | String c r =>
          if PyStr.is_digit c
          then take_digits k' (acc * 10 + PyStr.digit_val c) r
          else None
      | EmptyString => None
      end
  end.

Definition expect (c : ascii) (s : string) : option string :=
  match s with
  | String c' r => if Ascii.eqb c c' then Some r else None
  | EmptyString => None
  end.

Definition valid_date (y m d : Z) : bool :=
  (1 <=? y) && (y <=? 9999) && (1 <=? m) && (m <=? 12)
  && (1 <=? d) && (d <=? days_in_month y m).

Definition valid_time (h mi s : Z) : bool :=
  (h <=? 23) && (mi <=? 59) && (s <=? 59).

(** [HH:MM] or [HH:MM:SS], to the end of the string. *)
Definition parse_time (s : string) : option (Z * Z * Z) :=
  match take_digits 2 0 s with
  | Some (h, r1) =>
      match expect ":" r1 with
      | Some r2 =>
          match take_digits 2 0 r2 with
          | Some (mi, EmptyString) => Some (h, mi, 0)
          | Some (mi, r3) =>
              match expect ":" r3 with
              | Some r4 =>
                  match take_digits 2 0 r4 with
                  | Some (sec, EmptyString) => Some (h, mi, sec)
                  | _ => None
                  end
              | None => None
              end
          | None => None
          end
      | None => None
      end
  | None => None
  end.

(** [datetime.fromisoformat] on the literal formats of the interface:
    [YYYY-MM-DD], and [YYYY-MM-DD] followed by one separator character and
    [HH:MM] or [HH:MM:SS].  [None] stands for [ValueError]. *)
Definition fromisoformat (s : string) : option datetime :=
  match take_digits 4 0 s with
  | Some (y, r1) =>
      match expect "-" r1 with
      | Some r2 =>
          match take_digits 2 0 r2 with
          | Some (m, r3) =>
              match expect "-" r3 with
              | Some r4 =>
                  match take_digits 2 0 r4 with
                  | Some (d, rest) =>
                      if valid_date y m d then
                        match rest with
                        | EmptyString => Some (mk_datetime y m d 0 0 0 0)
                        | String _ t =>
                            match parse_time t with
                            | Some (h, mi, sec) =>
                                if valid_time h mi sec
                                then Some (mk_datetime y m d h mi sec 0)
                                else None
                            | None => None
                            end
                        end
                      else None
                  | None => None
                  end
              | None => None
              end
          | None => None
          end
      | None => None
      end
  | None => None
  end.

End Datetime.

(** ** JSON values and [json.loads] *)
Module Json.

(** A decoded JSON document.  A number keeps its literal; an object keeps its
    members in source order, and is read as the [dict] built from them. *)
#[warnings="-register-all"] Inductive json : Type :=
| JNull
| JBool (b : bool)
| JNum (literal : string)
| JStr (s : string)
| JArr (items : list json)
| JObj (members : list (string * json)).

(** [d.get(key)] on the [dict] of an object: the last member of that name. *)
Fixpoint dict_get (key : string) (members : list (string * json)) : option json :=
  match members with
  | [] => None
  | (k, v) :: rest =>
      match dict_get key rest with
      | Some v' => Some v'
      | None => if String.eqb k key then Some v else None
      end
  end.

(** [key in d] *)
Definition dict_has (key : string) (members : list (string * json)) : bool :=
  match dict_get key members with Some _ => true | None => false end.

Definition chr (n : nat) : ascii := ascii_of_nat n.
Definition is_chr (n : nat) (c : ascii) : bool := Ascii.eqb c (chr n).
Definition str1 (c : ascii) : string := String c EmptyString.

(** The whitespace of the JSON grammar: space, TAB, LF, CR. *)
Definition is_ws (c : ascii) : bool :=
  is_chr 32 c || is_chr 9 c || is_chr 10 c || is_chr 13 c.

Fixpoint skip_ws (s : string) : string :=
  match s with
  | EmptyString => EmptyString
  | String c r => if is_ws c then skip_ws r else s
  end.

Definition hex_val (c : ascii) : option Z :=
  let n := nat_of_ascii c in
  if ((48 <=? n) && (n <=? 57))%nat then Some (Z.of_nat n - 48)
  else if ((97 <=? n) && (n <=? 102))%nat then Some (Z.of_nat n - 87)
  else if ((65 <=? n) && (n <=? 70))%nat then Some (Z.of_nat n - 55)
  else None.

(** Four hexadecimal digits, as after a [\u]. *)
Definition hex4 (s : string) : option (Z * string) :=
  match s with
  | String a (String b (String c (String d r))) =>
      match hex_val a, hex_val b, hex_val c, hex_val d with
      | Some x, Some y, Some z, Some w =>
          Some (((x * 16 + y) * 16 + z) * 16 + w, r)
      | _, _, _, _ => None
      end
  | _ => None
  end.

Definition byte_of (n : Z) : string := str1 (ascii_of_nat (Z.to_nat n)).

(** The bytes of one code point (surrogates are written in three bytes). *)
Definition utf8 (cp : Z) : string :=
  if cp <? 128 then byte_of cp
  else if cp <? 2048 then
    byte_of (192 + cp / 64) ++ byte_of (128 + cp mod 64)
  else if cp <? 65536 then
    byte_of (224 + cp / 4096) ++ byte_of (128 + (cp / 64) mod 64)
    ++ byte_of (128 + cp mod 64)
  else
    byte_of (240 + cp / 262144) ++ byte_of (128 + (cp / 4096) mod 64)
    ++ byte_of (128 + (cp / 64) mod 64) ++ byte_of (128 + cp mod 64).

(** The character named by a one-letter escape. *)
Definition simple_escape (c : ascii) : option ascii :=
  if is_chr 34 c then Some (chr 34)        (* quote *)
  else if is_chr 92 c then Some (chr 92)   (* backslash *)
  else if is_chr 47 c then Some (chr 47)   (* slash *)
  else if is_chr 98 c then Some (chr 8)    (* backspace *)
  else if is_chr 102 c then Some (chr 12)  (* form feed *)
  else if is_chr 110 c then Some (chr 10)  (* line feed *)
  else if is_chr 114 c then Some (chr 13)  (* carriage return *)
  else if is_chr 116 c then Some (chr 9)   (* tab *)
  else None.

(** A low surrogate escape right behind a high surrogate [u] joins it. *)
Definition join_surrogate (u : Z) (rest : string) : Z * string :=
  if (55296 <=? u) && (u <=? 56319) then
    match rest with
    | String b (String l r) =>
        if is_chr 92 b && is_chr 117 l then
          match hex4 r with
          | Some (u2, r') =>
              if (56320 <=? u2) && (u2 <=? 57343)
              then (65536 + (u - 55296) * 1024 + (u2 - 56320), r')
              else (u, rest)
          | None => (u, rest)
          end
        else (u, rest)
    | _ => (u, rest)
    end
  else (u, rest).

Definition prepend (p : string) (o : option (string * string))
  : option (string * string) :=
  match o with
  | Some (s, r) => Some (p ++ s, r)
  | None => None
  end.

(** [scanstring], strict mode: the text behind an opening quote, up to the
    closing one.  Control characters below U+0020 are refused. *)
Fixpoint scan_string (fuel : nat) (s : string) : option (string * string) :=
  match fuel with
  | O => None
  | S f =>
      match s with
      | EmptyString => None
      | String c r =>
          if is_chr 34 c then Some (EmptyString, r)
          else if is_chr 92 c then
            match r with
            | EmptyString => None
            | String e r' =>
                if is_chr 117 e then
                  match hex4 r' with
                  | Some (u, r'') =>
                      let '(cp, rest) := join_surrogate u r'' in
                      prepend (utf8 cp) (scan_string f rest)
                  | None => None
                  end
                else
                  match simple_escape e with
                  | Some ch => prepend (str1 ch) (scan_string f r')
                  | None => None
                  end
            end
          else if (nat_of_ascii c <? 32)%nat then None
          else prepend (str1 c) (scan_string f r)
      end
  end.

Definition scanstring (s : string) : option (string * string) :=
  scan_string (S (String.length s)) s.

(** The longest prefix of decimal digits. *)
Fixpoint span_digits (s : string) : string * string :=
  match s with
  | String c r =>
      if PyStr.is_digit c
      then let '(d, rest) := span_digits r in (String c d, rest)
      else (EmptyString, s)
  | EmptyString => (EmptyString, EmptyString)
  end.

(** An optional minus sign, then 0 or a digit string without leading zero. *)
Definition scan_int (s : string) : option (string * string) :=
  let '(sign, r) :=
    match s with
    | String c r => if is_chr 45 c then ("-", r) else (EmptyString, s)
    | EmptyString => (EmptyString, s)
    end in
  match r with
  | String c r' =>
      if is_chr 48 c then Some (sign ++ "0", r')
      else if PyStr.is_digit c then
        let '(d, rest) := span_digits r in Some (sign ++ d, rest)
      else None
  | EmptyString => None
  end.

(** An optional fraction: a point and at least one digit. *)
Definition scan_frac (s : string) : string * string :=
  match s with
  | String c r =>
      if is_chr 46 c then
        match span_digits r with
        | (EmptyString, _) => (EmptyString, s)
        | (d, rest) => ("." ++ d, rest)
        end
      else (EmptyString, s)
  | EmptyString => (EmptyString, s)
  end.

(** An optional exponent: e or E, an optional sign, at least one digit. *)
Definition scan_exp (s : string) : string * string :=
  match s with
  | String c r =>
      if is_chr 101 c || is_chr 69 c then
        let '(sign, r1) :=
          match r with
          | String g r' =>
              if is_chr 45 g || is_chr 43 g then (str1 g, r') else (EmptyString, r)
          | EmptyString => (EmptyString, r)
          end in
        match span_digits r1 with
        | (EmptyString, _) => (EmptyString, s)
        | (d, rest) => (str1 c ++ sign ++ d, rest)
        end
      else (EmptyString, s)
  | EmptyString => (EmptyString, s)
  end.

Definition scan_number (s : string) : option (json * string) :=
  match scan_int s with
  | Some (i, r) =>
      let '(fr, r1) := scan_frac r in
      let '(ex, r2) := scan_exp r1 in
      Some (JNum (i ++ fr ++ ex), r2)
  | None => None
  end.

(** The text behind a fixed word, when the text starts with it. *)
Fixpoint strip_prefix (w s : string) : option string :=
  match w with
  | EmptyString => Some s
  | String a w' =>
      match s with
      | String b s' => if Ascii.eqb a b then strip_prefix w' s' else None
      | EmptyString => None
      end
  end.

(** A fixed word at the front of the text. *)
Definition keyword (w : string) (v : json) (s : string) : option (json * string) :=
  match strip_prefix w s with
  | Some r => Some (v, r)
  | None => None
  end.

Definition first_of {A : Type} (a b : option A) : option A :=
  match a with Some _ => a | None => b end.

(** Values that are neither strings, objects nor arrays, in the order the
    scanner tries them. *)
Definition scan_atom (s : string) : option (json * string) :=
  first_of (keyword "null" JNull s)
  (first_of (keyword "true" (JBool true) s)
  (first_of (keyword "false" (JBool false) s)
  (first_of (scan_number s)
  (first_of (keyword "NaN" (JNum "NaN") s)
  (first_of (keyword "Infinity" (JNum "Infinity") s)
            (keyword "-Infinity" (JNum "-Infinity") s)))))).

(** [scan_once], with [JSONObject] and [JSONArray].  [scan_members] starts
    behind the opening quote of a member name, [scan_elements] at a value. *)
Fixpoint scan_once (fuel : nat) (s : string) {struct fuel}
  : option (json * string) :=
  match fuel with
  | O => None
  | S f =>
      match s with
      | EmptyString => None
      | String c r =>
          if is_chr 34 c then
            match scanstring r with
            | Some (str, rest) => Some (JStr str, rest)
            | None => None
            end
          else if is_chr 123 c then
            match skip_ws r with
            | String c1 r1 =>
                if is_chr 125 c1 then Some (JObj [], r1)
                else if is_chr 34 c1 then scan_members f r1 []
                else None
            | EmptyString => None
            end
          else if is_chr 91 c then
            match skip_ws r with
            | String c1 r1 =>
                if is_chr 93 c1 then Some (JArr [], r1)
                else scan_elements f (String c1 r1) []
            | EmptyString => None
            end
          else scan_atom s
      end
  end
with scan_members (fuel : nat) (s : string) (acc : list (string * json))
  {struct fuel} : option (json * string) :=
  match fuel with
  | O => None
  | S f =>
      match scanstring s with
      | Some (key, r) =>
          match skip_ws r with
          | String c1 r1 =>
              if is_chr 58 c1 then
                match scan_once f (skip_ws r1) with
                | Some (v, r2) =>
                    match skip_ws r2 with
                    | String c3 r3 =>
                        if is_chr 125 c3
                        then Some (JObj (rev ((key, v) :: acc)), r3)
                        else if is_chr 44 c3 then
                          match skip_ws r3 with
                          | String c4 r4 =>
                              if is_chr 34 c4
                              then scan_members f r4 ((key, v) :: acc)
                              else None
                          | EmptyString => None
                          end
                        else None
                    | EmptyString => None
                    end
                | None => None
                end
              else None
          | EmptyString => None
          end
      | None => None
      end
  end
with scan_elements (fuel : nat) (s : string) (acc : list json)
  {struct fuel} : option (json * string) :=
  match fuel with
  | O => None
  | S f =>
      match scan_once f s with
      | Some (v, r) =>
          match skip_ws r with
          | String c1 r1 =>
              if is_chr 93 c1 then Some (JArr (rev (v :: acc)), r1)
              else if is_chr 44 c1 then scan_elements f (skip_ws r1) (v :: acc)
              else None
          | EmptyString => None
          end
      | None => None
      end
  end.

(** The byte order mark, refused at the start of a document. *)
Definition bom : string := byte_of 239 ++ byte_of 187 ++ byte_of 191.

(** [json.loads(s)] with a given amount of fuel: one value, with whitespace
    around it and nothing else.  [None] stands for [JSONDecodeError]. *)
Definition loads_fuel (fuel : nat) (s : string) : option json :=
  if prefix bom s then None
  else
    match scan_once fuel (skip_ws s) with
    | Some (v, r) =>
        match skip_ws r with
        | EmptyString => Some v
        | String _ _ => None
        end
    | None => None
    end.

(** [json.loads(s)].  Every level of nesting and every element costs at most
    two units of fuel and at least one character, so twice the length is
    enough. *)
Definition loads (s : string) : option json :=
  loads_fuel (2 * String.length s + 2) s.

End Json.

(** ** Exceptions and results *)
Module Py.

(** The exceptions that cross the code.  [HTTPException] is FastAPI's, with
    its status code and its detail; a detail written as an f-string ending in
    the caught exception keeps that exception as [cause].  [HttpError] is the
    search client's, with the status of the response.  [ServiceError] is any
    other exception raised by an external service. *)
#[warnings="-register-all"] Inductive pyexn : Type :=
| HTTPException (status_code : Z) (detail : string) (cause : option pyexn)
| HttpError (status : Z)
| JSONDecodeError
| ValidationError
| TypeError
| AttributeError
| ValueError
| ServiceError (message : string).

Inductive result (A : Type) : Type :=
| Ok (a : A)
| Raise (e : pyexn).

Arguments Ok {A} a.
Arguments Raise {A} e.

End Py.

(** ** [schemas.py]: the validated shapes *)
Module schemas.
Import Json.

Record PersonaCreate : Type := mk_PersonaCreate {
  persona_text : string;
  preferred_times : option (list string);
  focus_duration : option string;
  location : option string
}.

Record AIRecommendationRequest : Type := mk_AIRecommendationRequest {
  prompt : string;
  start_date : string;
  end_date : string
}.

Record AIRecommendationResponseSchedule : Type :=
  mk_AIRecommendationResponseSchedule {
  title : string;
  date : string;
  start_time : string;
  end_time : string;
  reason : string
}.

Record AIRecommendationResponse : Type := mk_AIRecommendationResponse {
  schedules : list AIRecommendationResponseSchedule;
  summary : string
}.

(** A required field annotated [str]: the argument must be there and be a
    string.  The models are those of pydantic 2 (their [Config] sets
    [from_attributes]), where a number is not converted to a string. *)
Definition required_str (name : string) (kwargs : list (string * json))
  : option string :=
  match dict_get name kwargs with
  | Some (JStr s) => Some s
  | _ => None
  end.

(** Validation of one element of [schedules]: a mapping with the five string
    fields.  Names that are not fields are ignored, as the models keep the
    default configuration. *)
Definition validate_schedule (v : json) : option AIRecommendationResponseSchedule :=
  match v with
  | JObj m =>
      match required_str "title" m, required_str "date" m,
            required_str "start_time" m, required_str "end_time" m,
            required_str "reason" m with
      | Some t, Some d, Some st, Some en, Some r =>
          Some (mk_AIRecommendationResponseSchedule t d st en r)
      | _, _, _, _, _ => None
      end
  | _ => None
  end.

Fixpoint validate_schedules (l : list json)
  : option (list AIRecommendationResponseSchedule) :=
  match l with
  | [] => Some []
  | v :: rest =>
      match validate_schedule v, validate_schedules rest with
      | Some x, Some xs => Some (x :: xs)
      | _, _ => None
      end
  end.

(** The constructor [AIRecommendationResponse] applied to keyword arguments;
    [None] stands for the [ValidationError]. *)
Definition validate_response (kwargs : list (string * json))
  : option AIRecommendationResponse :=
  match dict_get "schedules" kwargs with
  | Some (JArr items) =>
      match validate_schedules items, required_str "summary" kwargs with
      | Some xs, Some s => Some (mk_AIRecommendationResponse xs s)
      | _, _ => None
      end
  | _ => None
  end.

(** The schedule models.  The field names of [ScheduleBase] are shared by
    several models of the file, so here they carry the prefix [sb_]; the
    fields of the other models carry a prefix of their own.
    [ScheduleCreate] adds nothing to [ScheduleBase]; [ScheduleBulkCreateItem]
    adds [is_ai_generated] and [ai_reason]. *)
Record ScheduleBase : Type := mk_ScheduleBase {
  sb_title : string;
  sb_description : option string;
  sb_start_datetime : Datetime.datetime;
  sb_end_datetime : Datetime.datetime;
  sb_is_completed : bool
}.

Definition ScheduleCreate : Type := ScheduleBase.

Record ScheduleBulkCreateItem : Type := mk_ScheduleBulkCreateItem {
  item_base : ScheduleBase;
  item_is_ai_generated : bool;
  item_ai_reason : option string
}.

(** The input of the bulk creation, shaped like an item of a recommendation. *)
Record ScheduleBulkCreateItemInput : Type := mk_ScheduleBulkCreateItemInput {
  in_title : string;
  in_date : string;
  in_start_time : string;
  in_end_time : string;
  in_reason : option string
}.

Record ScheduleBulkCreate : Type := mk_ScheduleBulkCreate {
  bulk_schedules : list ScheduleBulkCreateItemInput
}.

Record ScheduleStatusUpdate : Type := mk_ScheduleStatusUpdate {
  status_is_completed : bool
}.

End schemas.

(** ** [models.py]: the rows of the two tables *)
Module models.
Import Datetime.

Record Persona : Type := mk_Persona {
  id : Z;
  persona_text : string;
  preferred_times : option (list string);
  focus_duration : option string;
  location : option string;
  created_at : datetime;
  updated_at : option datetime
}.

Record Schedule : Type := mk_Schedule {
  schedule_id : Z;
  title : string;
  description : option string;
  start_datetime : datetime;
  end_datetime : datetime;
  is_ai_generated : bool;
  ai_reason : option string;
  is_completed : bool;
  schedule_created_at : datetime
}.

(** The database behind a session: the rows of [personas] and [schedules]. *)
Record Session : Type := mk_Session {
  personas : list Persona;
  schedules : list Schedule
}.

End models.

(** ** [crud.py] *)
Module crud.
Import Datetime.

(** [db.query(models.Persona).first()] *)
Definition get_persona (db : models.Session) : option models.Persona :=
  match models.personas db with
  | [] => None
  | p :: _ => Some p
  end.

Definition next_id (rows : list models.Persona) : Z :=
  1 + fold_right (fun p m => Z.max (models.id p) m) 0 rows.

(** [create_or_update_persona]: the first row is rewritten in place, or a row
    is added when the table is empty.  [utcnow] is the clock of the process,
    [server_now] the one behind the column default of [created_at].  The
    session after the commit and the refreshed row are returned. *)
Definition create_or_update_persona (utcnow server_now : datetime)
  (db : models.Session) (persona : schemas.PersonaCreate)
  : models.Session * models.Persona :=
  match models.personas db with
  | p :: rest =>
      let p' :=
        models.mk_Persona (models.id p)
          (schemas.persona_text persona)
          (schemas.preferred_times persona)
          (schemas.focus_duration persona)
          (schemas.location persona)
          (models.created_at p)
          (Some utcnow) in
      (models.mk_Session (p' :: rest) (models.schedules db), p')
  | [] =>
      let p' :=
        models.mk_Persona (next_id [])
          (schemas.persona_text persona)
          (schemas.preferred_times persona)
          (schemas.focus_duration persona)
          (schemas.location persona)
          server_now
          None in
      (models.mk_Session [p'] (models.schedules db), p')
  end.

(** [ORDER BY start_datetime]: insertion into a list ordered by start; rows
    with equal starts keep their table order. *)
Fixpoint insert_by_start (x : models.Schedule) (l : list models.Schedule)
  : list models.Schedule :=
  match l with
  | [] => [x]
  | y :: r =>
      if le (models.start_datetime x) (models.start_datetime y)
      then x :: l
      else y :: insert_by_start x r
  end.

Definition order_by_start (l : list models.Schedule) : list models.Schedule :=
  fold_right insert_by_start [] l.

(** The [filter] clause of [get_schedules_by_date_range]. *)
Definition in_range (start_date end_date : datetime) (s : models.Schedule) : bool :=
  ge (models.start_datetime s) start_date && le (models.end_datetime s) end_date.

Definition get_schedules_by_date_range (db : models.Session)
  (start_date end_date : datetime) : list models.Schedule :=
  order_by_start (filter (in_range start_date end_date) (models.schedules db)).

(** The key the database gives a new row of [schedules]: one above the
    largest key of the table. *)
Definition next_schedule_id (rows : list models.Schedule) : Z :=
  1 + fold_right (fun s m => Z.max (models.schedule_id s) m) 0 rows.

(** The row made from the fields of a request, with the key and the creation
    time the database fills in. *)
Definition new_schedule (key : Z) (server_now : datetime)
  (b : schemas.ScheduleBase) (is_ai_generated : bool) (ai_reason : option string)
  : models.Schedule :=
  models.mk_Schedule key (schemas.sb_title b) (schemas.sb_description b)
    (schemas.sb_start_datetime b) (schemas.sb_end_datetime b)
    is_ai_generated ai_reason (schemas.sb_is_completed b) server_now.

(** [create_schedule]: the request has no [is_ai_generated], so the column
    default [False] applies, and [ai_reason] stays empty. *)
Definition create_schedule (server_now : datetime) (db : models.Session)
  (schedule : schemas.ScheduleCreate) : models.Session * models.Schedule :=
  let row :=
    new_schedule (next_schedule_id (models.schedules db)) server_now schedule
      false None in
  (models.mk_Session (models.personas db) (models.schedules db ++ [row]), row).

(** [db.add_all]: the rows are inserted in the order of the list. *)
Fixpoint add_all (server_now : datetime) (rows : list models.Schedule)
  (items : list schemas.ScheduleBulkCreateItem)
  : list models.Schedule * list models.Schedule :=
  match items with
  | [] => (rows, [])
  | i :: rest =>
      let row :=
        new_schedule (next_schedule_id rows) server_now (schemas.item_base i)
          (schemas.item_is_ai_generated i) (schemas.item_ai_reason i) in
      let '(table, created) := add_all server_now (rows ++ [row]) rest in
      (table, row :: created)
  end.

Definition bulk_create_schedules (server_now : datetime) (db : models.Session)
  (schedules : list schemas.ScheduleBulkCreateItem)
  : models.Session * list models.Schedule :=
  let '(table, created) := add_all server_now (models.schedules db) schedules in
  (models.mk_Session (models.personas db) table, created).

(** [filter(models.Schedule.id == schedule_id).first()] *)
Definition get_schedule (db : models.Session) (schedule_id : Z)
  : option models.Schedule :=
  find (fun s => models.schedule_id s =? schedule_id) (models.schedules db).

(** The table with the first row of key [schedule_id] rewritten by [f]; [id]
    is the primary key, so that row is the one the session holds. *)
Fixpoint rewrite_row (schedule_id : Z) (f : models.Schedule -> models.Schedule)
  (rows : list models.Schedule) : list models.Schedule :=
  match rows with
  | [] => []
  | s :: rest =>
      if models.schedule_id s =? schedule_id
      then f s :: rest
      else s :: rewrite_row schedule_id f rest
  end.

(** The table without the first row of key [schedule_id]. *)
Fixpoint remove_row (schedule_id : Z) (rows : list models.Schedule)
  : list models.Schedule :=
  match rows with
  | [] => []
  | s :: rest =>
      if models.schedule_id s =? schedule_id
      then rest
      else s :: remove_row schedule_id rest
  end.

(** The [setattr] loop of [update_schedule]: the five fields of the request
    are written, the others are kept. *)
Definition set_fields (schedule : schemas.ScheduleCreate) (s : models.Schedule)
  : models.Schedule :=
  models.mk_Schedule (models.schedule_id s) (schemas.sb_title schedule)
    (schemas.sb_description schedule) (schemas.sb_start_datetime schedule)
    (schemas.sb_end_datetime schedule) (models.is_ai_generated s)
    (models.ai_reason s) (schemas.sb_is_completed schedule)
    (models.schedule_created_at s).

Definition update_schedule (db : models.Session) (schedule_id : Z)
  (schedule : schemas.ScheduleCreate)
  : models.Session * option models.Schedule :=
  match get_schedule db schedule_id with
  | Some db_schedule =>
      (models.mk_Session (models.personas db)
         (rewrite_row schedule_id (set_fields schedule) (models.schedules db)),
       Some (set_fields schedule db_schedule))
  | None => (db, None)
  end.

Definition delete_schedule (db : models.Session) (schedule_id : Z)
  : models.Session * option models.Schedule :=
  match get_schedule db schedule_id with
  | Some db_schedule =>
      (models.mk_Session (models.personas db)
         (remove_row schedule_id (models.schedules db)),
       Some db_schedule)
  | None => (db, None)
  end.

Definition set_is_completed (is_completed : bool) (s : models.Schedule)
  : models.Schedule :=
  models.mk_Schedule (models.schedule_id s) (models.title s)
    (models.description s) (models.start_datetime s) (models.end_datetime s)
    (models.is_ai_generated s) (models.ai_reason s) is_completed
    (models.schedule_created_at s).

Definition update_schedule_status (db : models.Session) (schedule_id : Z)
  (is_completed : bool) : models.Session * option models.Schedule :=
  match get_schedule db schedule_id with
  | Some db_schedule =>
      (models.mk_Session (models.personas db)
         (rewrite_row schedule_id (set_is_completed is_completed)
            (models.schedules db)),
       Some (set_is_completed is_completed db_schedule))
  | None => (db, None)
  end.

End crud.

(** ** [ai_engine.py] *)
Module ai_engine.
Import Datetime Json Py.

(** What the process sees of its environment: the clocks, the three
    credentials read at import time, the search provider and the generative
    model.  [customsearch key q cx num] is the outcome of building the client
    with [key] and executing [cse().list(q, cx, num)]: the decoded response
    (a [dict], given by its members) or the exception raised.
    [generate_content model prompt] is the [text] of the response of the
    model, or the exception raised on the way. *)
Record World : Type := mk_World {
  now : datetime;
  utcnow : datetime;
  server_now : datetime;
  GOOGLE_API_KEY : option string;
  CUSTOM_SEARCH_ENGINE_ID : option string;
  gemini_api_key : option string;
  customsearch : string -> string -> string -> Z -> result (list (string * json));
  generate_content : string -> string -> result string
}.

(** The call log: one entry per call of a web tool, per request sent to the
    search provider and per request sent to the model. *)
Inductive event : Type :=
| CallSearchPublicHolidays (location : string) (start_date : datetime)
| CallSearchWeatherForecast (location : string) (start_date : datetime)
| CallExecuteWebSearch (query : string)
| CseRequest (q cx : string) (num : Z)
| ModelRequest (model prompt : string).

Record state : Type := mk_state {
  db : models.Session;
  log : list event
}.

(** Computations that read and write the session, extend the log and may
    raise. *)
Definition M (A : Type) : Type := state -> result A * state.

Definition ret {A : Type} (a : A) : M A := fun st => (Ok a, st).

Definition raise {A : Type} (e : pyexn) : M A := fun st => (Raise e, st).

Definition bind {A B : Type} (m : M A) (k : A -> M B) : M B :=
  fun st =>
    match m st with
    | (Ok a, st') => k a st'
    | (Raise e, st') => (Raise e, st')
    end.

(** [try: m  except Exception as e: handler e] *)
Definition try_except {A : Type} (m : M A) (handler : pyexn -> M A) : M A :=
  fun st =>
    match m st with
    | (Ok a, st') => (Ok a, st')
    | (Raise e, st') => handler e st'
    end.

Definition record (e : event) : M unit :=
  fun st => (Ok tt, mk_state (db st) (log st ++ [e])).

Definition query {A : Type} (f : models.Session -> A) : M A :=
  fun st => (Ok (f (db st)), st).

Definition commit {A : Type} (f : models.Session -> models.Session * A) : M A :=
  fun st => let '(db', a) := f (db st) in (Ok a, mk_state db' (log st)).

Definition lift {A : Type} (r : result A) : M A := fun st => (r, st).

Local Notation "x <- m ;; k" := (bind m (fun x => k))
  (at level 61, m at next level, right associativity).
Local Notation "m ;;; k" := (bind m (fun _ => k))
  (at level 61, right associativity).

Definition OUTDOOR_KEYWORDS : list string :=
  ["run"; "hike"; "outside"; "picnic"; "walk"; "cycling"; "park";
   "달리기"; "등산"; "산책"; "소풍"; "야외"; "자전거"; "공원"].

Definition PERSONA_UPDATE_PROMPT_TEMPLATE (original_persona schedule_history : string) : string :=
  "
You are a productivity analyst AI. Your task is to update a user's persona based on their recent activity.
Analyze the original persona and the user's schedule history from the last 30 days.
Identify patterns, such as the time of day they are most productive, the types of tasks they complete successfully, and the tasks they tend to miss.
Generate a new, updated persona description that merges the user's core identity with these new data-driven insights.
The new persona should be a more accurate and nuanced reflection of the user's actual behavior.

- The user's preferred times and focus duration should be preserved unless the data strongly suggests a change.
- The output must be a single, continuous block of text for the new persona. Do not output anything else.

# Original Persona
" ++ original_persona ++ "

# Recent Schedule History (Last 30 Days)
" ++ schedule_history ++ "

# Updated Persona Description:
".

Definition FINAL_RECOMMENDATION_PROMPT_TEMPLATE (persona_details holidays weather existing_schedules user_prompt start_date end_date : string) : string :=
  "
You are a helpful AI assistant that creates a schedule based on user requests.
Analyze all the provided context to create an optimized and practical plan.

# User Persona
" ++ persona_details ++ "

# External Context
- Public Holidays: " ++ holidays ++ "
- Weather Forecast: " ++ weather ++ "

# Existing Schedules in the requested period
" ++ existing_schedules ++ "

# User Request
- Goal: " ++ PyStr.dq ++ user_prompt ++ PyStr.dq ++ "
- Period: " ++ start_date ++ " to " ++ end_date ++ "

# Instructions
1. Do not overlap with existing schedules.
2. Do not schedule work-related tasks on public holidays.
3. Do not schedule outdoor activities on days with bad weather (e.g., rain, storm).
4. Prioritize the user's preferred times if possible.
5. Create schedule blocks that respect the user's focus duration.
6. Generate a concrete and actionable plan.
7. Provide a reason for each recommended schedule.

# Output Format
Provide the output in a strict JSON format. Do not add any text before or after the JSON block.
The JSON object must have two keys: " ++ PyStr.dq ++ "schedules" ++ PyStr.dq ++ " and " ++ PyStr.dq ++ "summary" ++ PyStr.dq ++ ".
- " ++ PyStr.dq ++ "schedules" ++ PyStr.dq ++ ": A list of objects, where each object has " ++ PyStr.dq ++ "title" ++ PyStr.dq ++ ", " ++ PyStr.dq ++ "date" ++ PyStr.dq ++ " (YYYY-MM-DD), " ++ PyStr.dq ++ "start_time" ++ PyStr.dq ++ " (HH:MM), " ++ PyStr.dq ++ "end_time" ++ PyStr.dq ++ " (HH:MM), and " ++ PyStr.dq ++ "reason" ++ PyStr.dq ++ ".
- " ++ PyStr.dq ++ "summary" ++ PyStr.dq ++ ": A brief summary of the generated plan.

Example:
{
  " ++ PyStr.dq ++ "schedules" ++ PyStr.dq ++ ": [
    {
      " ++ PyStr.dq ++ "title" ++ PyStr.dq ++ ": " ++ PyStr.dq ++ "Project Planning" ++ PyStr.dq ++ ",
      " ++ PyStr.dq ++ "date" ++ PyStr.dq ++ ": " ++ PyStr.dq ++ "2025-11-20" ++ PyStr.dq ++ ",
      " ++ PyStr.dq ++ "start_time" ++ PyStr.dq ++ ": " ++ PyStr.dq ++ "19:30" ++ PyStr.dq ++ ",
      " ++ PyStr.dq ++ "end_time" ++ PyStr.dq ++ ": " ++ PyStr.dq ++ "21:30" ++ PyStr.dq ++ ",
      " ++ PyStr.dq ++ "reason" ++ PyStr.dq ++ ": " ++ PyStr.dq ++ "Evening is a preferred time, and this 2-hour block matches the focus duration." ++ PyStr.dq ++ "
    }
  ],
  " ++ PyStr.dq ++ "summary" ++ PyStr.dq ++ ": " ++ PyStr.dq ++ "Scheduled project planning for 2 hours in the evening to kickstart your goal." ++ PyStr.dq ++ "
}
".

Definition _format_schedules_for_prompt (schedules : list models.Schedule) : string :=
  match schedules with
  | [] => "No existing schedules."
  | _ =>
      PyStr.join PyStr.nl
        (map (fun s =>
                "- " ++ models.title s ++ " from "
                ++ strftime_ymd_hm (models.start_datetime s) ++ " to "
                ++ strftime_ymd_hm (models.end_datetime s))
             schedules)
  end.

(** [str(x)] of an optional string inside an f-string. *)
Definition str_opt (o : option string) : string :=
  match o with Some s => s | None => "None" end.

Definition _format_persona_for_prompt (persona : models.Persona) : string :=
  let location_info :=
    if PyStr.truthy (models.location persona)
    then PyStr.nl ++ "- Location: " ++ str_opt (models.location persona)
    else "" in
  "- Persona: " ++ models.persona_text persona ++ PyStr.nl
  ++ "- Preferred Times: "
  ++ PyStr.join ", "
       (match models.preferred_times persona with Some l => l | None => [] end)
  ++ PyStr.nl
  ++ "- Typical Focus Duration: " ++ str_opt (models.focus_duration persona)
  ++ location_info ++ PyStr.nl.

Definition _build_final_prompt (persona : models.Persona)
  (schedules : list models.Schedule) (request : schemas.AIRecommendationRequest)
  (holidays weather : string) : string :=
  let persona_details := _format_persona_for_prompt persona in
  let existing_schedules_str := _format_schedules_for_prompt schedules in
  FINAL_RECOMMENDATION_PROMPT_TEMPLATE persona_details holidays weather
    existing_schedules_str (schemas.prompt request)
    (schemas.start_date request) (schemas.end_date request).

Definition _format_schedule_history_for_prompt (schedules : list models.Schedule)
  : string :=
  match schedules with
  | [] => "No schedules found in the last 30 days."
  | _ =>
      PyStr.join PyStr.nl
        (map (fun s =>
                "- Date: " ++ strftime_ymd (models.start_datetime s)
                ++ ", Title: " ++ models.title s ++ ", Completed: "
                ++ (if models.is_completed s then "Yes" else "No"))
             schedules)
  end.

Definition _build_persona_update_prompt (original_persona : models.Persona)
  (schedule_history : list models.Schedule) : string :=
  let history_str := _format_schedule_history_for_prompt schedule_history in
  let original_persona_str := _format_persona_for_prompt original_persona in
  PERSONA_UPDATE_PROMPT_TEMPLATE original_persona_str history_str.

(** The fixed texts returned in place of search results. *)
Definition NOT_CONFIGURED : string :=
  "Web search is not configured. GOOGLE_API_KEY or CUSTOM_SEARCH_ENGINE_ID is missing.".
Definition NO_RELEVANT_INFORMATION : string := "No relevant information found.".
Definition HTTP_FAILURE (status : Z) : string :=
  "Web search failed with HTTP error: " ++ PyStr.of_int status.
Definition UNEXPECTED_FAILURE : string :=
  "An unexpected error occurred during web search.".
Definition NEAR_FUTURE_ONLY : string :=
  "Weather forecast is only available for the near future (within 10 days).".
Definition HOLIDAYS_NOT_AVAILABLE : string :=
  "Not available. User location not set.".
Definition WEATHER_NOT_AVAILABLE : string :=
  "Not available. User location not set or not an outdoor activity.".

Definition PERSONA_NOT_SET : pyexn :=
  HTTPException 400 "Persona not set. Please create a persona first." None.
Definition INVALID_DATE_FORMAT : pyexn :=
  HTTPException 400 "Invalid date format. Use YYYY-MM-DD." None.
Definition GEMINI_NOT_CONFIGURED : pyexn :=
  HTTPException 500 "GEMINI_API_KEY is not configured." None.

(** Iterating over [result['items']]: a list gives its elements, an empty
    string or an empty mapping gives nothing, a non-empty one gives strings,
    anything else is not iterable. *)
Definition iterate (v : json) : result (list json) :=
  match v with
  | JArr l => Ok l
  | JStr EmptyString => Ok []
  | JStr s => Ok (map (fun c => JStr (str1 c)) (list_ascii_of_string s))
  | JObj m => Ok (map (fun kv => JStr (fst kv)) m)
  | _ => Raise TypeError
  end.

(** [item.get('snippet', '')]: only a mapping has [get]. *)
Definition get_snippet (item : json) : result json :=
  match item with
  | JObj m =>
      match dict_get "snippet" m with
      | Some v => Ok v
      | None => Ok (JStr "")
      end
  | _ => Raise AttributeError
  end.

Fixpoint get_snippets (items : list json) : result (list json) :=
  match items with
  | [] => Ok []
  | i :: rest =>
      match get_snippet i with
      | Ok v =>
          match get_snippets rest with
          | Ok vs => Ok (v :: vs)
          | Raise e => Raise e
          end
      | Raise e => Raise e
      end
  end.

(** The arguments of [' '.join]: each must be a string. *)
Fixpoint as_strings (vs : list json) : result (list string) :=
  match vs with
  | [] => Ok []
  | JStr s :: rest =>
      match as_strings rest with
      | Ok l => Ok (s :: l)
      | Raise e => Raise e
      end
  | _ :: _ => Raise TypeError
  end.

(** The text made of the snippets: joined by spaces, line feeds turned into
    spaces, stripped. *)
Definition normalize_snippets (snippets : list string) : string :=
  PyStr.strip (PyStr.replace PyStr.nl " " (PyStr.join " " snippets)).

Section WithWorld.

Variable w : World.

Definition _get_user_persona : M models.Persona :=
  persona <- query crud.get_persona ;;
  match persona with
  | None => raise PERSONA_NOT_SET
  | Some p => ret p
  end.

Definition _get_existing_schedules (start_date end_date : datetime)
  : M (list models.Schedule) :=
  query (fun d => crud.get_schedules_by_date_range d start_date end_date).

Definition _execute_web_search (query : string) : M string :=
  record (CallExecuteWebSearch query) ;;;
  if negb (PyStr.truthy (GOOGLE_API_KEY w))
     || negb (PyStr.truthy (CUSTOM_SEARCH_ENGINE_ID w))
  then ret NOT_CONFIGURED
  else
    let key := str_opt (GOOGLE_API_KEY w) in
    let cx := str_opt (CUSTOM_SEARCH_ENGINE_ID w) in
    try_except
      (record (CseRequest query cx 3) ;;;
       result <- lift (customsearch w key query cx 3) ;;
       match dict_get "items" result with
       | None => ret NO_RELEVANT_INFORMATION
       | Some items =>
           elements <- lift (iterate items) ;;
           values <- lift (get_snippets elements) ;;
           snippets <- lift (as_strings values) ;;
           ret (normalize_snippets snippets)
       end)
      (fun e =>
         match e with
         | HttpError status => ret (HTTP_FAILURE status)
         | _ => ret UNEXPECTED_FAILURE
         end).

Definition _search_public_holidays (location : string) (start_date : datetime)
  : M string :=
  record (CallSearchPublicHolidays location start_date) ;;;
  let query :=
    "public holidays in " ++ location ++ " " ++ PyStr.of_int (year start_date) in
  _execute_web_search query.

Definition _search_weather_forecast (location : string) (start_date : datetime)
  : M string :=
  record (CallSearchWeatherForecast location start_date) ;;;
  if 10 <? sub_days start_date (now w)
  then ret NEAR_FUTURE_ONLY
  else
    let query :=
      "weather forecast for " ++ location ++ " on " ++ strftime_ymd start_date in
    _execute_web_search query.

(** [any(keyword in req.prompt.lower() for keyword in OUTDOOR_KEYWORDS)] *)
Definition is_outdoor_request (prompt : string) : bool :=
  existsb (fun keyword => PyStr.contains keyword (PyStr.lower prompt))
          OUTDOOR_KEYWORDS.

(** Lines 269 to 273: the text of the model cleaned, decoded and validated. *)
Definition clean_response_text (text : string) : string :=
  PyStr.strip (PyStr.replace "```" "" (PyStr.replace "```json" "" (PyStr.strip text))).

Definition parse_response (text : string) : result schemas.AIRecommendationResponse :=
  match loads (clean_response_text text) with
  | None => Raise JSONDecodeError
  | Some (JObj kwargs) =>
      match schemas.validate_response kwargs with
      | Some r => Ok r
      | None => Raise ValidationError
      end
  | Some _ => Raise TypeError
  end.

Definition RECOMMENDATION_FAILED (e : pyexn) : pyexn :=
  HTTPException 500 "Failed to get recommendation from AI: " (Some e).
Definition PERSONA_UPDATE_FAILED (e : pyexn) : pyexn :=
  HTTPException 500 "Failed to update persona using AI: " (Some e).

Definition parse_dates (req : schemas.AIRecommendationRequest)
  : M (datetime * datetime) :=
  match fromisoformat (schemas.start_date req),
        fromisoformat (schemas.end_date req) with
  | Some start_dt, Some end_dt => ret (start_dt, end_dt)
  | _, _ => raise INVALID_DATE_FORMAT
  end.

(** Lines 244 to 252: the two context strings. *)
Definition gather_external_context (persona : models.Persona)
  (req : schemas.AIRecommendationRequest) (start_dt : datetime)
  : M (string * string) :=
  match models.location persona with
  | Some (String c r) =>
      let location := String c r in
      holidays <- _search_public_holidays location start_dt ;;
      if is_outdoor_request (schemas.prompt req)
      then
        weather <- _search_weather_forecast location start_dt ;;
        ret (holidays, weather)
      else ret (holidays, WEATHER_NOT_AVAILABLE)
  | _ => ret (HOLIDAYS_NOT_AVAILABLE, WEATHER_NOT_AVAILABLE)
  end.

Definition run_recommendation_agent (req : schemas.AIRecommendationRequest)
  : M schemas.AIRecommendationResponse :=
  persona <- _get_user_persona ;;
  dates <- parse_dates req ;;
  let '(start_dt, end_dt) := dates in
  existing_schedules <- _get_existing_schedules start_dt end_dt ;;
  context <- gather_external_context persona req start_dt ;;
  let '(holidays, weather) := context in
  let prompt := _build_final_prompt persona existing_schedules req holidays weather in
  if negb (PyStr.truthy (gemini_api_key w))
  then raise GEMINI_NOT_CONFIGURED
  else
    try_except
      (record (ModelRequest "gemini-2.5-flash" prompt) ;;;
       text <- lift (generate_content w "gemini-2.5-flash" prompt) ;;
       lift (parse_response text))
      (fun e => raise (RECOMMENDATION_FAILED e)).

Definition run_persona_update_agent : M models.Persona :=
  persona <- _get_user_persona ;;
  let end_date := now w in
  let start_date := minus_days end_date 30 in
  schedule_history <- _get_existing_schedules start_date end_date ;;
  let prompt := _build_persona_update_prompt persona schedule_history in
  if negb (PyStr.truthy (gemini_api_key w))
  then raise GEMINI_NOT_CONFIGURED
  else
    try_except
      (record (ModelRequest "gemini-2.5-flash" prompt) ;;;
       text <- lift (generate_content w "gemini-2.5-flash" prompt) ;;
       let updated_persona_text := PyStr.strip text in
       let updated_persona_data :=
         schemas.mk_PersonaCreate updated_persona_text
           (models.preferred_times persona)
           (models.focus_duration persona)
           (models.location persona) in
       commit (fun d =>
                 crud.create_or_update_persona (utcnow w) (server_now w) d
                   updated_persona_data))
      (fun e => raise (PERSONA_UPDATE_FAILED e)).

(** The persona endpoint of [main.py]: a direct upsert. *)
Definition create_or_update_persona_endpoint (persona : schemas.PersonaCreate)
  : M models.Persona :=
  commit (fun d => crud.create_or_update_persona (utcnow w) (server_now w) d persona).

End WithWorld.

End ai_engine.

(** ** [main.py] *)
Module main.
Import Datetime Json Py ai_engine.

Local Notation "x <- m ;; k" := (bind m (fun x => k))
  (at level 61, m at next level, right associativity).
Local Notation "m ;;; k" := (bind m (fun _ => k))
  (at level 61, right associativity).

(** The persona written at start-up when the table is empty. *)
Definition DEFAULT_PERSONA : schemas.PersonaCreate :=
  schemas.mk_PersonaCreate
    "A diligent office worker who wants to balance a healthy lifestyle with professional development. Tries to exercise in the evening and study new skills in the morning."
    (Some ["morning"; "evening"]) (Some "1hour") (Some "Seoul, Korea").

Definition PERSONA_NOT_FOUND : pyexn := HTTPException 404 "Persona not found" None.
Definition SCHEDULE_NOT_FOUND : pyexn := HTTPException 404 "Schedule not found" None.
Definition SCHEDULE_DATA_ERROR (e : pyexn) : pyexn :=
  HTTPException 400 "Error parsing schedule data: " (Some e).

(** One turn of the loop of [bulk_create_schedules_endpoint]: the two
    datetimes are read from the date and the two clock times, and the item is
    marked as generated. *)
Definition bulk_item (s : schemas.ScheduleBulkCreateItemInput)
  : result schemas.ScheduleBulkCreateItem :=
  match fromisoformat (schemas.in_date s ++ " " ++ schemas.in_start_time s),
        fromisoformat (schemas.in_date s ++ " " ++ schemas.in_end_time s) with
  | Some start_datetime, Some end_datetime =>
      Ok (schemas.mk_ScheduleBulkCreateItem
            (schemas.mk_ScheduleBase (schemas.in_title s) None start_datetime
               end_datetime false)
            true (schemas.in_reason s))
  | _, _ => Raise (SCHEDULE_DATA_ERROR ValueError)
  end.

(** The whole loop: the first item that cannot be read ends it. *)
Fixpoint bulk_items (l : list schemas.ScheduleBulkCreateItemInput)
  : result (list schemas.ScheduleBulkCreateItem) :=
  match l with
  | [] => Ok []
  | s :: rest =>
      match bulk_item s with
      | Ok item =>
          match bulk_items rest with
          | Ok items => Ok (item :: items)
          | Raise e => Raise e
          end
      | Raise e => Raise e
      end
  end.

(** What a route answers. *)
Inductive response : Type :=
| PersonaResponse (p : models.Persona)
| ScheduleResponse (s : models.Schedule)
| SchedulesResponse (l : list models.Schedule)
| RecommendationResponse (r : schemas.AIRecommendationResponse)
| RootResponse (status message : string).

(** The routes of the application, with the arguments they take. *)
Inductive request : Type :=
| PostPersona (persona : schemas.PersonaCreate)
| GetPersona
| PostPersonaUpdateFromHistory
| PostSchedule (schedule : schemas.ScheduleCreate)
| PostSchedulesBulkCreate (payload : schemas.ScheduleBulkCreate)
| GetSchedules (start_date end_date : datetime)
| PutSchedule (schedule_id : Z) (schedule : schemas.ScheduleCreate)
| PutScheduleStatus (schedule_id : Z) (status : schemas.ScheduleStatusUpdate)
| DeleteSchedule (schedule_id : Z)
| PostSchedulesRecommend (req : schemas.AIRecommendationRequest)
| GetRoot.

Section WithWorld.

Variable w : World.

(** [seed_initial_data], on the database the sessions of the routes share. *)
Definition seed_initial_data : M unit :=
  n <- query (fun d => List.length (models.personas d)) ;;
  if Nat.eqb n 0
  then
    commit (fun d =>
              crud.create_or_update_persona (utcnow w) (server_now w) d
                DEFAULT_PERSONA) ;;;
    ret tt
  else ret tt.

Definition read_persona_endpoint : M models.Persona :=
  db_persona <- query crud.get_persona ;;
  match db_persona with
  | None => raise PERSONA_NOT_FOUND
  | Some p => ret p
  end.

Definition update_persona_from_history_endpoint : M models.Persona :=
  run_persona_update_agent w.

Definition create_schedule_endpoint (schedule : schemas.ScheduleCreate)
  : M models.Schedule :=
  commit (fun d => crud.create_schedule (server_now w) d schedule).

Definition bulk_create_schedules_endpoint (payload : schemas.ScheduleBulkCreate)
  : M (list models.Schedule) :=
  schedules_to_create <- lift (bulk_items (schemas.bulk_schedules payload)) ;;
  commit (fun d => crud.bulk_create_schedules (server_now w) d schedules_to_create).

Definition read_schedules_endpoint (start_date end_date : datetime)
  : M (list models.Schedule) :=
  query (fun d => crud.get_schedules_by_date_range d start_date end_date).

(** The three routes that answer 404 when the key is unknown. *)
Definition found (r : option models.Schedule) : M models.Schedule :=
  match r with
  | None => raise SCHEDULE_NOT_FOUND
  | Some s => ret s
  end.

Definition update_schedule_endpoint (schedule_id : Z)
  (schedule : schemas.ScheduleCreate) : M models.Schedule :=
  db_schedule <- commit (fun d => crud.update_schedule d schedule_id schedule) ;;
  found db_schedule.

Definition update_schedule_status_endpoint (schedule_id : Z)
  (status : schemas.ScheduleStatusUpdate) : M models.Schedule :=
  db_schedule <-
    commit (fun d =>
              crud.update_schedule_status d schedule_id
                (schemas.status_is_completed status)) ;;
  found db_schedule.

Definition delete_schedule_endpoint (schedule_id : Z) : M models.Schedule :=
  db_schedule <- commit (fun d => crud.delete_schedule d schedule_id) ;;
  found db_schedule.

Definition recommend_schedules_endpoint (req : schemas.AIRecommendationRequest)
  : M schemas.AIRecommendationResponse :=
  run_recommendation_agent w req.

Definition read_root : M (string * string) :=
  ret ("ok", "Welcome to the AI Scheduler API!").

(** A request routed to its endpoint. *)
Definition answer {A : Type} (wrap : A -> response) (m : M A) : M response :=
  a <- m ;; ret (wrap a).

Definition dispatch (r : request) : M response :=
  match r with
  | PostPersona persona =>
      answer PersonaResponse (create_or_update_persona_endpoint w persona)
  | GetPersona => answer PersonaResponse read_persona_endpoint
  | PostPersonaUpdateFromHistory =>
      answer PersonaResponse update_persona_from_history_endpoint
  | PostSchedule schedule =>
      answer ScheduleResponse (create_schedule_endpoint schedule)
  | PostSchedulesBulkCreate payload =>
      answer SchedulesResponse (bulk_create_schedules_endpoint payload)
  | GetSchedules start_date end_date =>
      answer SchedulesResponse (read_schedules_endpoint start_date end_date)
  | PutSchedule schedule_id schedule =>
      answer ScheduleResponse (update_schedule_endpoint schedule_id schedule)
  | PutScheduleStatus schedule_id status =>
      answer ScheduleResponse (update_schedule_status_endpoint schedule_id status)
  | DeleteSchedule schedule_id =>
      answer ScheduleResponse (delete_schedule_endpoint schedule_id)
  | PostSchedulesRecommend req =>
      answer RecommendationResponse (recommend_schedules_endpoint req)
  | GetRoot => answer (fun sm => RootResponse (fst sm) (snd sm)) read_root
  end.

End WithWorld.

(** The application serving requests one after the other, each in the world
    of its moment; the answers are dropped and the state is kept. *)
Fixpoint serve (requests : list (World * request)) (st : state) : state :=
  match requests with
  | [] => st
  | (w, r) :: rest => serve rest (snd (dispatch w r st))
  end.

(** The state of the process once the module is loaded: the tables as found,
    the seeding done. *)
Definition startup (w : World) (d : models.Session) : state :=
  snd (seed_initial_data w (mk_state d [])).

End main.

(** ** Observations on runs *)
Module Observe.
Import Datetime Json Py ai_engine.

(** Rows ordered by start time. *)
Definition starts_before (a b : models.Schedule) : Prop :=
  to_micro (models.start_datetime a) <= to_micro (models.start_datetime b).

(** A row lies within the range [s .. e]. *)
Definition within (s e : datetime) (x : models.Schedule) : Prop :=
  to_micro s <= to_micro (models.start_datetime x)
  /\ to_micro (models.end_datetime x) <= to_micro e.

Definition is_holiday_call (e : event) : bool :=
  match e with CallSearchPublicHolidays _ _ => true | _ => false end.
Definition is_weather_call (e : event) : bool :=
  match e with CallSearchWeatherForecast _ _ => true | _ => false end.
Definition is_search_call (e : event) : bool :=
  match e with CallExecuteWebSearch _ => true | _ => false end.
Definition is_cse_request (e : event) : bool :=
  match e with CseRequest _ _ _ => true | _ => false end.
Definition is_model_request (e : event) : bool :=
  match e with ModelRequest _ _ => true | _ => false end.

Definition count (p : event -> bool) (l : list event) : nat :=
  List.length (filter p l).


(** The queries handed to [_execute_web_search], in order. *)
Definition queries (l : list event) : list string :=
  flat_map (fun e => match e with CallExecuteWebSearch q => [q] | _ => [] end) l.

(** A run started on an empty log. *)
Definition run {A : Type} (m : M A) (d : models.Session) : result A * state :=
  m (mk_state d []).

(** The provider returns no more results than asked for. *)
Definition honours_num (w : World) : Prop :=
  forall key q cx num members items,
    customsearch w key q cx num = Ok members ->
    dict_get "items" members = Some (JArr items) ->
    Z.of_nat (List.length items) <= num.




(** The snippets read off the [items] of a response, when that succeeds. *)
Definition snippets_of (items : json) : result (list string) :=
  match iterate items with
  | Ok elements =>
      match get_snippets elements with
      | Ok values => as_strings values
      | Raise e => Raise e
      end
  | Raise e => Raise e
  end.


Definition configured (w : World) : bool :=
  PyStr.truthy (GOOGLE_API_KEY w) && PyStr.truthy (CUSTOM_SEARCH_ENGINE_ID w).

(** The two query templates. *)
Definition holiday_query (location : string) (start_date : datetime) : string :=
  "public holidays in " ++ location ++ " " ++ PyStr.of_int (year start_date).

Definition weather_query (location : string) (start_date : datetime) : string :=
  "weather forecast for " ++ location ++ " on " ++ strftime_ymd start_date.

(** The log entries of one call of [_execute_web_search]. *)
Definition search_events (w : World) (q : string) : list event :=
  CallExecuteWebSearch q
  :: (if configured w
      then [CseRequest q (str_opt (CUSTOM_SEARCH_ENGINE_ID w)) 3]
      else []).

(** The log entries of one call of [_search_weather_forecast]. *)
Definition weather_events (w : World) (location : string) (start_date : datetime)
  : list event :=
  CallSearchWeatherForecast location start_date
  :: (if 10 <? sub_days start_date (now w)
      then []
      else search_events w (weather_query location start_date)).

(** The log entries of the context step of a recommendation. *)
Definition context_events (w : World) (persona : models.Persona)
  (req : schemas.AIRecommendationRequest) (start_dt : datetime) : list event :=
  match models.location persona with
  | Some (String c r) =>
      CallSearchPublicHolidays (String c r) start_dt
      :: search_events w (holiday_query (String c r) start_dt)
      ++ (if is_outdoor_request (schemas.prompt req)
          then weather_events w (String c r) start_dt
          else [])
  | _ => []
  end.

(** The start date lies more than ten days after the clock reading. *)
Definition more_than_ten_days_ahead (now start_date : datetime) : Prop :=
  to_micro start_date - to_micro now > 10 * us_per_day.


(** The prompt of a persona update, and the request built from the answer of
    the model. *)
Definition update_prompt (w : World) (d : models.Session) (p : models.Persona)
  : string :=
  _build_persona_update_prompt p
    (crud.get_schedules_by_date_range d (minus_days (now w) 30) (now w)).

Definition updated_persona_data (p : models.Persona) (text : string)
  : schemas.PersonaCreate :=
  schemas.mk_PersonaCreate (PyStr.strip text) (models.preferred_times p)
    (models.focus_duration p) (models.location p).

End Observe.

(** ** Concrete stores, worlds and requests *)
Module Examples.
Import Datetime Json Py ai_engine.

Definition at_midnight (y m d : Z) : datetime := mk_datetime y m d 0 0 0 0.

(** A search provider with four results on file, which serves the first
    [num] of them and refuses a request for less than one. *)
Definition snippet_item (s : string) : json :=
  JObj [("title", JStr "Result"); ("snippet", JStr s)].

Definition results_on_file : list json :=
  [snippet_item ("Christmas Day is on" ++ PyStr.nl ++ "25 December. ");
   snippet_item " New Year's Day";
   snippet_item "Seollal";
   snippet_item "Chuseok"].

Definition provider (key q cx : string) (num : Z)
  : result (list (string * json)) :=
  if num <? 1 then Raise (HttpError 400)
  else Ok [("kind", JStr "customsearch#search");
           ("items", JArr (firstn (Z.to_nat num) results_on_file))].

(** A word between double quotes. *)
Definition quoted (s : string) : string := PyStr.dq ++ s ++ PyStr.dq.

(** Answers of a model: the empty plan inside a Markdown fence, a text that
    is no JSON, an object without [summary], and the empty plan with a third
    top-level member. *)
Definition empty_plan : string :=
  "{" ++ quoted "schedules" ++ ": [], " ++ quoted "summary" ++ ": " ++ quoted "ok" ++ "}".

Definition fenced_empty_plan : string :=
  "```json" ++ PyStr.nl ++ empty_plan ++ PyStr.nl ++ "```".




(** A model that answers every prompt with the fenced empty plan. *)

Definition model (name prompt : string) : result string := Ok fenced_empty_plan.

(** Noon of 20 November 2025, every credential set. *)
Definition noon : datetime := mk_datetime 2025 11 20 12 0 0 0.

Definition world : World :=
  mk_World noon noon noon (Some "search-key") (Some "engine-id")
    (Some "model-key") provider model.

(** The seeded persona of [main.py], and a store holding it with two
    schedules. *)
Definition seoul_persona : models.Persona :=
  models.mk_Persona 1
    "A diligent office worker who wants to balance a healthy lifestyle with professional development."
    (Some ["morning"; "evening"]) (Some "1hour") (Some "Seoul, Korea")
    (at_midnight 2025 11 1) None.

Definition schedule (n : Z) (title : string) (s e : datetime) : models.Schedule :=
  models.mk_Schedule n title None s e false None false (at_midnight 2025 11 1).

Definition two_schedules : list models.Schedule :=
  [schedule 1 "Dentist" (mk_datetime 2025 12 3 15 0 0 0) (mk_datetime 2025 12 3 16 0 0 0);
   schedule 2 "Weekly project sync" (mk_datetime 2025 12 2 10 0 0 0)
     (mk_datetime 2025 12 2 11 0 0 0)].

Definition store : models.Session := models.mk_Session [seoul_persona] two_schedules.

Definition empty_store : models.Session := models.mk_Session [] two_schedules.

Definition run_request : schemas.AIRecommendationRequest :=
  schemas.mk_AIRecommendationRequest "I want to go for a run" "2025-12-01" "2025-12-07".



(** A request whose two dates are both malformed. *)
Definition malformed_request : schemas.AIRecommendationRequest :=
  schemas.mk_AIRecommendationRequest "plan my week" "next monday" "2025-13-45".

(** Worlds where the search answers 403, where the connection breaks, and
    where one credential is missing. *)
Definition world_forbidden : World :=
  mk_World noon noon noon (Some "search-key") (Some "engine-id")
    (Some "model-key") (fun _ _ _ _ => Raise (HttpError 403)) model.

Definition world_offline : World :=
  mk_World noon noon noon (Some "search-key") (Some "engine-id")
    (Some "model-key") (fun _ _ _ _ => Raise (ServiceError "connection reset"))
    model.

Definition world_unconfigured : World :=
  mk_World noon noon noon None (Some "engine-id") (Some "model-key") provider model.



Definition blank_persona_request : schemas.PersonaCreate :=
  schemas.mk_PersonaCreate "" (Some ["evening"]) (Some "30min") None.

(** A model that rewrites the persona, with white space around its answer. *)
Definition world_with_new_persona : World :=
  mk_World noon noon noon (Some "search-key") (Some "engine-id")
    (Some "model-key") provider
    (fun _ _ => Ok (" An early riser who finishes planned runs." ++ PyStr.nl)).

(** The first of December 2025, ten days and twelve hours after [noon]. *)
Definition first_of_december : datetime := at_midnight 2025 12 1.

End Examples.

(** ** Invariants of the store *)
Module Invariants.
Import Datetime Json Py ai_engine.

(** The keys of the table [schedules]. *)
Definition schedule_ids (d : models.Session) : list Z :=
  map models.schedule_id (models.schedules d).

(** No key of [schedules] occurs twice. *)
Definition unique_ids (d : models.Session) : Prop := NoDup (schedule_ids d).

(** The table [personas] holds one row. *)
Definition one_persona (d : models.Session) : Prop :=
  List.length (models.personas d) = 1%nat.

(** A row carries the five fields of a request. *)
Definition carries (b : schemas.ScheduleBase) (s : models.Schedule) : Prop :=
  models.title s = schemas.sb_title b
  /\ models.description s = schemas.sb_description b
  /\ models.start_datetime s = schemas.sb_start_datetime b
  /\ models.end_datetime s = schemas.sb_end_datetime b
  /\ models.is_completed s = schemas.sb_is_completed b.

(** Two rows agree on what the database and the recommendation filled in:
    the key, the creation time and the two provenance fields. *)
Definition same_origin (a b : models.Schedule) : Prop :=
  models.schedule_id a = models.schedule_id b
  /\ models.schedule_created_at a = models.schedule_created_at b
  /\ models.is_ai_generated a = models.is_ai_generated b
  /\ models.ai_reason a = models.ai_reason b.


(** The routes that only read. *)
Definition read_only (r : main.request) : bool :=
  match r with
  | main.GetPersona | main.GetSchedules _ _
  | main.PostSchedulesRecommend _ | main.GetRoot => true
  | _ => false
  end.

(** The routes that write the persona, and those that write schedules. *)
Definition persona_route (r : main.request) : bool :=
  match r with
  | main.PostPersona _ | main.PostPersonaUpdateFromHistory => true
  | _ => false
  end.

Definition schedule_route (r : main.request) : bool :=
  match r with
  | main.PostSchedule _ | main.PostSchedulesBulkCreate _
  | main.PutSchedule _ _ | main.PutScheduleStatus _ _
  | main.DeleteSchedule _ => true
  | _ => false
  end.

(** What one request can do to the store: nothing, or one write of
    [crud.py]. *)
Inductive store_step (d : models.Session) : models.Session -> Prop :=
| step_none : store_step d d
| step_upsert utcnow server_now persona :
    store_step d (fst (crud.create_or_update_persona utcnow server_now d persona))
| step_create server_now schedule :
    store_step d (fst (crud.create_schedule server_now d schedule))
| step_bulk server_now items :
    store_step d (fst (crud.bulk_create_schedules server_now d items))
| step_update k schedule :
    store_step d (fst (crud.update_schedule d k schedule))
| step_status k is_completed :
    store_step d (fst (crud.update_schedule_status d k is_completed))
| step_delete k :
    store_step d (fst (crud.delete_schedule d k)).

(** The routes that can reach the search provider or the model. *)
Definition agent_route (r : main.request) : bool :=
  match r with
  | main.PostSchedulesRecommend _ | main.PostPersonaUpdateFromHistory => true
  | _ => false
  end.







End Invariants.

(** ** Further stores and requests *)
Module Scenarios.
Import Datetime Json Py ai_engine.

Definition gym : schemas.ScheduleCreate :=
  schemas.mk_ScheduleBase "Gym" (Some "Leg day")
    (mk_datetime 2025 12 4 19 0 0 0) (mk_datetime 2025 12 4 20 0 0 0) false.

Definition two_inputs : list schemas.ScheduleBulkCreateItemInput :=
  [schemas.mk_ScheduleBulkCreateItemInput "Review AI Agent architecture"
     "2025-11-28" "14:00" "15:00" (Some "Suggested for the project goal.");
   schemas.mk_ScheduleBulkCreateItemInput "Code refactoring session"
     "2025-11-29" "10:00" "12:00" None].





End Scenarios.

(** * Properties *)

Import Datetime Json Py ai_engine Observe.
Open Scope list_scope.

(** Closes a goal [exists s, run = (Ok s, st') /\ P s /\ Q s] once the run has
    been evaluated. *)
Ltac answer :=
  eexists; split;
  [ try rewrite <- app_assoc; reflexivity
  | split; first [ reflexivity | discriminate | intros _; reflexivity ] ].

(** ** The schedule query *)

Lemma insert_by_start_perm x l :
  Permutation (crud.insert_by_start x l) (x :: l).
Proof.
  induction l as [|y r IH]; simpl.
  - apply Permutation_refl.
  - destruct (le (models.start_datetime x) (models.start_datetime y)).
    + apply Permutation_refl.
    + eapply perm_trans; [apply perm_skip, IH | apply perm_swap].
Qed.

Lemma order_by_start_perm l : Permutation (crud.order_by_start l) l.
Proof.
  induction l as [|x r IH]; simpl.
  - constructor.
  - eapply perm_trans; [apply insert_by_start_perm | now apply perm_skip].
Qed.

Lemma starts_before_trans a b c :
  starts_before a b -> starts_before b c -> starts_before a c.
Proof. unfold starts_before; lia. Qed.

Lemma insert_by_start_sorted x l :
  StronglySorted starts_before l ->
  StronglySorted starts_before (crud.insert_by_start x l).
Proof.
  induction 1 as [|y r Hs IH Hall]; simpl.
  - repeat constructor.
  - unfold le.
    destruct (Z.leb_spec (to_micro (models.start_datetime x))
                         (to_micro (models.start_datetime y))) as [Hle|Hgt].
    + constructor; [now constructor|].
      constructor; [exact Hle|].
      eapply Forall_impl; [|exact Hall].
      intros z Hz; eapply starts_before_trans; [exact Hle | exact Hz].
    + constructor; [exact IH|].
      eapply Permutation_Forall;
        [apply Permutation_sym, insert_by_start_perm|].
      constructor; [unfold starts_before; lia | exact Hall].
Qed.

Lemma order_by_start_sorted l :
  StronglySorted starts_before (crud.order_by_start l).
Proof.
  induction l as [|x r IH]; simpl.
  - constructor.
  - now apply insert_by_start_sorted.
Qed.

Lemma in_range_within s e x : crud.in_range s e x = true <-> within s e x.
Proof.
  unfold crud.in_range, within, ge, le.
  rewrite andb_true_iff, !Z.leb_le; tauto.
Qed.

(** C5.  For every date range, [get_schedules_by_date_range] returns exactly
    the stored schedules that start at or after the range start and end at or
    before the range end (each as often as it is stored), in ascending order
    of start time. *)
Theorem get_schedules_by_date_range_exact :
  forall (d : models.Session) (s e : datetime),
    let r := crud.get_schedules_by_date_range d s e in
    Permutation r (filter (crud.in_range s e) (models.schedules d))
    /\ (forall x, In x r <-> In x (models.schedules d) /\ within s e x)
    /\ StronglySorted starts_before r.
Proof.
  intros d s e r; subst r; unfold crud.get_schedules_by_date_range.
  split; [apply order_by_start_perm|].
  split; [|apply order_by_start_sorted].
  intro x; split.
  - intro Hin.
    apply (Permutation_in _ (order_by_start_perm _)) in Hin.
    apply filter_In in Hin.
    now rewrite in_range_within in Hin.
  - intros [Hin Hw].
    apply (Permutation_in _ (Permutation_sym (order_by_start_perm _))).
    apply filter_In; split; [exact Hin | now apply in_range_within].
Qed.

(** ** Text lemmas *)











(** ** The fuel of the decoder *)

Lemma skip_ws_length s : (String.length (skip_ws s) <= String.length s)%nat.
Proof.
  induction s as [|c r IH]; cbn; [lia|].
  destruct (is_ws c); cbn; lia.
Qed.

Lemma strip_prefix_length w : forall s r,
  strip_prefix w s = Some r ->
  String.length s = (String.length w + String.length r)%nat.
Proof.
  induction w as [|a w IH]; intros s r H; cbn in H.
  - inversion H; reflexivity.
  - destruct s as [|b s]; [discriminate|].
    destruct (Ascii.eqb a b); [|discriminate].
    cbn; f_equal; now apply IH.
Qed.

Lemma keyword_length w v s x r :
  keyword w v s = Some (x, r) ->
  String.length s = (String.length w + String.length r)%nat.
Proof.
  unfold keyword.
  destruct (strip_prefix w s) as [r'|] eqn:E; [|discriminate].
  intro H; inversion H; subst; now apply strip_prefix_length.
Qed.

Lemma span_digits_length s : forall d r,
  span_digits s = (d, r) -> (String.length r <= String.length s)%nat.
Proof.
  induction s as [|c s IH]; intros d r H; cbn in H.
  - inversion H; cbn; lia.
  - destruct (PyStr.is_digit c).
    + destruct (span_digits s) as [d' r'] eqn:E.
      inversion H; subst. specialize (IH _ _ eq_refl). cbn; lia.
    + inversion H; subst; cbn; lia.
Qed.

Lemma scan_int_length s i r :
  scan_int s = Some (i, r) -> (String.length r < String.length s)%nat.
Proof.
  unfold scan_int.
  assert (Hbody : forall sign t,
    match t with
    | String c r' =>
        if is_chr 48 c then Some ((sign ++ "0")%string, r')
        else if PyStr.is_digit c
             then let '(d, rest) := span_digits t in Some ((sign ++ d)%string, rest)
             else None
    | EmptyString => None
    end = Some (i, r) -> (String.length r < String.length t)%nat).
  { intros sign [|c t] H; [discriminate|].
    destruct (is_chr 48 c); [inversion H; subst; cbn; lia|].
    destruct (PyStr.is_digit c) eqn:Ed; [|discriminate].
    cbn [span_digits] in H; rewrite Ed in H.
    destruct (span_digits t) as [d rest] eqn:E.
    inversion H; subst. apply span_digits_length in E. cbn; lia. }
  destruct s as [|c t]; [discriminate|].
  destruct (is_chr 45 c).
  - intro H; apply (Hbody "-"%string t) in H; cbn; lia.
  - apply (Hbody EmptyString (String c t)).
Qed.

Lemma scan_frac_length s fr r :
  scan_frac s = (fr, r) -> (String.length r <= String.length s)%nat.
Proof.
  unfold scan_frac. destruct s as [|c t]; [intro H; inversion H; lia|].
  destruct (is_chr 46 c); [|intro H; inversion H; lia].
  destruct (span_digits t) as [[|d0 d] rest] eqn:E; intro H; inversion H; subst.
  - lia.
  - apply span_digits_length in E; cbn; lia.
Qed.

Lemma scan_exp_length s ex r :
  scan_exp s = (ex, r) -> (String.length r <= String.length s)%nat.
Proof.
  unfold scan_exp. destruct s as [|c t]; [intro H; inversion H; lia|].
  destruct (is_chr 101 c || is_chr 69 c); [|intro H; inversion H; lia].
  assert (Hsign : forall sign r1,
            (String.length r1 <= String.length t)%nat ->
            match span_digits r1 with
            | (EmptyString, _) => (EmptyString, String c t)
            | (d, rest) => ((str1 c ++ sign ++ d)%string, rest)
            end = (ex, r) -> (String.length r <= String.length (String c t))%nat).
  { intros sign r1 Hr1.
    destruct (span_digits r1) as [[|d0 d] rest] eqn:E; intro H; inversion H; subst.
    - lia.
    - apply span_digits_length in E; cbn; lia. }
  destruct t as [|g t'].
  - apply (Hsign EmptyString); lia.
  - destruct (is_chr 45 g || is_chr 43 g).
    + apply (Hsign (str1 g)); cbn; lia.
    + apply (Hsign EmptyString); lia.
Qed.

Lemma scan_number_length s v r :
  scan_number s = Some (v, r) -> (String.length r < String.length s)%nat.
Proof.
  unfold scan_number.
  destruct (scan_int s) as [[i r0]|] eqn:Ei; [|discriminate].
  destruct (scan_frac r0) as [fr r1] eqn:Ef.
  destruct (scan_exp r1) as [ex r2] eqn:Ee.
  intro H; inversion H; subst.
  apply scan_int_length in Ei. apply scan_frac_length in Ef.
  apply scan_exp_length in Ee. lia.
Qed.

Lemma scan_atom_length s v r :
  scan_atom s = Some (v, r) -> (String.length r < String.length s)%nat.
Proof.
  unfold scan_atom, first_of.
  repeat match goal with
  | |- context [match keyword ?w ?x s with _ => _ end] =>
      let E := fresh "E" in
      destruct (keyword w x s) as [[? ?]|] eqn:E;
      [intro H; inversion H; subst; apply keyword_length in E; cbn in E; lia|]
  | |- context [match scan_number s with _ => _ end] =>
      let E := fresh "E" in
      destruct (scan_number s) as [[? ?]|] eqn:E;
      [intro H; inversion H; subst; now apply scan_number_length in E|]
  end.
  intro H; apply keyword_length in H; cbn in H; lia.
Qed.

Lemma hex4_length s u r :
  hex4 s = Some (u, r) -> String.length s = (4 + String.length r)%nat.
Proof.
  unfold hex4.
  destruct s as [|a [|b [|c [|d t]]]]; try discriminate.
  destruct (hex_val a), (hex_val b), (hex_val c), (hex_val d); try discriminate.
  intro H; inversion H; reflexivity.
Qed.

Lemma join_surrogate_length u rest cp r :
  join_surrogate u rest = (cp, r) -> (String.length r <= String.length rest)%nat.
Proof.
  unfold join_surrogate.
  destruct ((55296 <=? u) && (u <=? 56319)); [|intro H; inversion H; lia].
  destruct rest as [|b [|l t]]; try (intro H; inversion H; lia).
  destruct (is_chr 92 b && is_chr 117 l); [|intro H; inversion H; lia].
  destruct (hex4 t) as [[u2 r']|] eqn:E; [|intro H; inversion H; lia].
  apply hex4_length in E.
  destruct ((56320 <=? u2) && (u2 <=? 57343)); intro H; inversion H; subst;
    cbn; lia.
Qed.

Lemma prepend_some p o x r :
  prepend p o = Some (x, r) -> exists x', o = Some (x', r).
Proof.
  unfold prepend. destruct o as [[x' r']|]; [|discriminate].
  intro H; inversion H; subst; now exists x'.
Qed.

Lemma scan_string_length f : forall s x r,
  scan_string f s = Some (x, r) -> (String.length r < String.length s)%nat.
Proof.
  induction f as [|f IH]; intros s x r H; cbn [scan_string] in H; [discriminate|].
  destruct s as [|c t]; [discriminate|].
  destruct (is_chr 34 c); [inversion H; subst; cbn; lia|].
  destruct (is_chr 92 c).
  - destruct t as [|e t']; [discriminate|].
    destruct (is_chr 117 e).
    + destruct (hex4 t') as [[u r'']|] eqn:Eh; [|discriminate].
      destruct (join_surrogate u r'') as [cp rest] eqn:Ej.
      apply prepend_some in H; destruct H as (x' & H).
      apply IH in H. apply hex4_length in Eh.
      apply join_surrogate_length in Ej. cbn; lia.
    + destruct (simple_escape e); [|discriminate].
      apply prepend_some in H; destruct H as (x' & H).
      apply IH in H. cbn; lia.
  - destruct (nat_of_ascii c <? 32)%nat; [discriminate|].
    apply prepend_some in H; destruct H as (x' & H).
    apply IH in H. cbn; lia.
Qed.

(** Any fuel above the length of the text gives [scan_string] the same
    result. *)
Lemma scan_string_fuel f : forall g s,
  (String.length s < f)%nat -> (String.length s < g)%nat ->
  scan_string f s = scan_string g s.
Proof.
  induction f as [|f IH]; intros g s Hf Hg; [lia|].
  destruct g as [|g]; [lia|].
  cbn [scan_string]. destruct s as [|c t]; [reflexivity|]. cbn in Hf, Hg.
  destruct (is_chr 34 c); [reflexivity|].
  destruct (is_chr 92 c).
  - destruct t as [|e t']; [reflexivity|]. cbn in Hf, Hg.
    destruct (is_chr 117 e).
    + destruct (hex4 t') as [[u r'']|] eqn:Eh; [|reflexivity].
      destruct (join_surrogate u r'') as [cp rest] eqn:Ej.
      apply hex4_length in Eh. apply join_surrogate_length in Ej.
      f_equal. apply IH; lia.
    + destruct (simple_escape e); [|reflexivity].
      f_equal. apply IH; lia.
  - destruct (nat_of_ascii c <? 32)%nat; [reflexivity|].
    f_equal. apply IH; lia.
Qed.

Lemma scanstring_length s x r :
  scanstring s = Some (x, r) -> (String.length r < String.length s)%nat.
Proof. apply scan_string_length. Qed.

(** Whatever fuel lets a scan succeed, the scan consumes at least one
    character and succeeds with the same result on any fuel that is at least
    twice the number of characters consumed. *)
Lemma scan_fuel f' :
  (forall s v r,
     scan_once f' s = Some (v, r) ->
     (String.length r < String.length s)%nat
     /\ forall f, (2 * (String.length s - String.length r) <= f)%nat ->
                  scan_once f s = Some (v, r))
  /\ (forall s acc v r,
        scan_members f' s acc = Some (v, r) ->
        (String.length r < String.length s)%nat
        /\ forall f, (2 * (String.length s - String.length r) <= f)%nat ->
                     scan_members f s acc = Some (v, r))
  /\ (forall s acc v r,
        scan_elements f' s acc = Some (v, r) ->
        (String.length r < String.length s)%nat
        /\ forall f, (2 * (String.length s - String.length r) <= f)%nat ->
                     scan_elements f s acc = Some (v, r)).
Proof.
  induction f' as [|f' (IHo & IHm & IHe)];
    [repeat split; intros; discriminate|].
  split; [|split].
  - (* scan_once *)
    intros s v r H. cbn [scan_once] in H.
    destruct s as [|c t]; [discriminate|].
    destruct (is_chr 34 c) eqn:E34.
    { destruct (scanstring t) as [[str rest]|] eqn:Es; [|discriminate].
      inversion H; subst; clear H. apply scanstring_length in Es as Hl.
      split; [cbn [String.length]; lia|]. intros f Hf. destruct f as [|f]; [cbn [String.length] in Hf; lia|].
      cbn [scan_once]. now rewrite E34, Es. }
    destruct (is_chr 123 c) eqn:E123.
    { pose proof (skip_ws_length t) as Hw.
      destruct (skip_ws t) as [|c1 r1] eqn:Ew; [discriminate|]. cbn [String.length] in Hw.
      destruct (is_chr 125 c1) eqn:E125.
      { inversion H; subst; clear H. split; [cbn [String.length]; lia|].
        intros f Hf. destruct f as [|f]; [cbn [String.length] in Hf; lia|].
        cbn [scan_once]. now rewrite E34, E123, Ew, E125. }
      destruct (is_chr 34 c1) eqn:E34'; [|discriminate].
      apply IHm in H. destruct H as [Hl Hfuel]. split; [cbn [String.length]; lia|].
      intros f Hf. destruct f as [|f]; [cbn [String.length] in Hf; lia|].
      cbn [scan_once]. rewrite E34, E123, Ew, E125, E34'.
      apply Hfuel. cbn [String.length] in Hf; lia. }
    destruct (is_chr 91 c) eqn:E91.
    { pose proof (skip_ws_length t) as Hw.
      destruct (skip_ws t) as [|c1 r1] eqn:Ew; [discriminate|]. cbn [String.length] in Hw.
      destruct (is_chr 93 c1) eqn:E93.
      { inversion H; subst; clear H. split; [cbn [String.length]; lia|].
        intros f Hf. destruct f as [|f]; [cbn [String.length] in Hf; lia|].
        cbn [scan_once]. now rewrite E34, E123, E91, Ew, E93. }
      apply IHe in H. destruct H as [Hl Hfuel]. cbn [String.length] in Hl. split; [cbn [String.length]; lia|].
      intros f Hf. destruct f as [|f]; [cbn [String.length] in Hf; lia|].
      cbn [scan_once]. rewrite E34, E123, E91, Ew, E93.
      apply Hfuel. cbn [String.length] in Hf |- *; lia. }
    apply scan_atom_length in H as Hl. split; [exact Hl|].
    intros f Hf. destruct f as [|f]; [lia|].
    cbn [scan_once]. now rewrite E34, E123, E91.
  - (* scan_members *)
    intros s acc v r H. cbn [scan_members] in H.
    destruct (scanstring s) as [[key r0]|] eqn:Es; [|discriminate].
    apply scanstring_length in Es as Hl0.
    pose proof (skip_ws_length r0) as Hw0.
    destruct (skip_ws r0) as [|c1 r1] eqn:Ew0; [discriminate|]. cbn [String.length] in Hw0.
    destruct (is_chr 58 c1) eqn:E58; [|discriminate].
    pose proof (skip_ws_length r1) as Hw1.
    destruct (scan_once f' (skip_ws r1)) as [[v1 r2]|] eqn:Eo; [|discriminate].
    apply IHo in Eo. destruct Eo as [Hl2 Hfuel2].
    pose proof (skip_ws_length r2) as Hw2.
    destruct (skip_ws r2) as [|c3 r3] eqn:Ew2; [discriminate|]. cbn [String.length] in Hw2.
    destruct (is_chr 125 c3) eqn:E125.
    { inversion H; subst; clear H. split; [lia|].
      intros f Hf. destruct f as [|f]; [lia|].
      cbn [scan_members]. rewrite Es, Ew0, E58, Hfuel2 by lia.
      now rewrite Ew2, E125. }
    destruct (is_chr 44 c3) eqn:E44; [|discriminate].
    pose proof (skip_ws_length r3) as Hw3.
    destruct (skip_ws r3) as [|c4 r4] eqn:Ew3; [discriminate|]. cbn [String.length] in Hw3.
    destruct (is_chr 34 c4) eqn:E34; [|discriminate].
    apply IHm in H. destruct H as [Hl Hfuel]. split; [lia|].
    intros f Hf. destruct f as [|f]; [lia|].
    cbn [scan_members]. rewrite Es, Ew0, E58, Hfuel2 by lia.
    rewrite Ew2, E125, E44, Ew3, E34. apply Hfuel; lia.
  - (* scan_elements *)
    intros s acc v r H. cbn [scan_elements] in H.
    destruct (scan_once f' s) as [[v1 r1]|] eqn:Eo; [|discriminate].
    apply IHo in Eo. destruct Eo as [Hl1 Hfuel1].
    pose proof (skip_ws_length r1) as Hw1.
    destruct (skip_ws r1) as [|c1 r2] eqn:Ew1; [discriminate|]. cbn [String.length] in Hw1.
    destruct (is_chr 93 c1) eqn:E93.
    { inversion H; subst; clear H. split; [lia|].
      intros f Hf. destruct f as [|f]; [lia|].
      cbn [scan_elements]. rewrite Hfuel1 by lia. now rewrite Ew1, E93. }
    destruct (is_chr 44 c1) eqn:E44; [|discriminate].
    pose proof (skip_ws_length r2) as Hw2.
    apply IHe in H. destruct H as [Hl Hfuel]. split; [lia|].
    intros f Hf. destruct f as [|f]; [lia|].
    cbn [scan_elements]. rewrite Hfuel1 by lia.
    rewrite Ew1, E93, E44. apply Hfuel; lia.
Qed.

(** The fuel [loads] picks is enough: more fuel decodes no other text and
    gives no other value. *)
Lemma loads_fuel_adequate (f : nat) (s : string) :
  (2 * String.length s + 2 <= f)%nat -> loads_fuel f s = loads s.
Proof.
  intro Hf. unfold loads, loads_fuel.
  destruct (prefix bom s); [reflexivity|].
  pose proof (skip_ws_length s) as Hw.
  destruct (scan_once f (skip_ws s)) as [[v r]|] eqn:E1.
  - destruct (proj1 (scan_fuel f) _ _ _ E1) as [Hl Hfuel].
    now rewrite Hfuel by lia.
  - destruct (scan_once (2 * String.length s + 2) (skip_ws s)) as [[v r]|] eqn:E2;
      [|reflexivity].
    destruct (proj1 (scan_fuel _) _ _ _ E2) as [Hl Hfuel].
    rewrite Hfuel in E1 by lia. discriminate.
Qed.

(** ** The search tool *)




Lemma iterate_raises v e : iterate v = Raise e -> e = TypeError.
Proof.
  destruct v as [| | |s|l|m]; cbn; try congruence.
  destruct s; discriminate.
Qed.

Lemma get_snippets_raises l : forall e,
  get_snippets l = Raise e -> e = AttributeError.
Proof.
  induction l as [|i r IH]; intros e H; cbn in H; [discriminate|].
  destruct i as [| | | | |m]; cbn in H; try congruence.
  destruct (dict_get "snippet" m);
    (destruct (get_snippets r); [discriminate | inversion H; subst; now apply IH]).
Qed.

Lemma as_strings_raises vs : forall e,
  as_strings vs = Raise e -> e = TypeError.
Proof.
  induction vs as [|v r IH]; intros e H; cbn in H; [discriminate|].
  destruct v; try congruence.
  destruct (as_strings r); [discriminate | inversion H; subst; now apply IH].
Qed.

(** What a call of [_execute_web_search] does: it returns a text, leaves the
    session alone and logs itself, followed by one provider request when both
    credentials are set. *)
Lemma execute_web_search_run (w : World) (q : string) (st : state) :
  exists s,
    _execute_web_search w q st
    = (Ok s,
       mk_state (db st) (log st ++ search_events w q))
    /\ (configured w = false -> s = NOT_CONFIGURED)
    /\ (configured w = true ->
        match customsearch w (str_opt (GOOGLE_API_KEY w)) q
                (str_opt (CUSTOM_SEARCH_ENGINE_ID w)) 3 with
        | Raise (HttpError status) => s = HTTP_FAILURE status
        | Raise _ => s = UNEXPECTED_FAILURE
        | Ok members =>
            match dict_get "items" members with
            | None => s = NO_RELEVANT_INFORMATION
            | Some items =>
                match snippets_of items with
                | Ok snippets => s = normalize_snippets snippets
                | Raise _ => s = UNEXPECTED_FAILURE
                end
            end
        end).
Proof.
  unfold search_events.
  unfold _execute_web_search, configured, bind, record, try_except, lift, ret.
  cbn [db log].
  destruct (PyStr.truthy (GOOGLE_API_KEY w)) eqn:Ek;
    destruct (PyStr.truthy (CUSTOM_SEARCH_ENGINE_ID w)) eqn:Ec;
    cbn [negb orb andb]; try answer.
  cbn [db log].
  destruct (customsearch w _ q _ 3) as [members|e] eqn:Es.
  - destruct (dict_get "items" members) as [items|] eqn:Ei; [|answer].
    unfold snippets_of.
    destruct (iterate items) as [els|e1] eqn:E1.
    + destruct (get_snippets els) as [vs|e2] eqn:E2.
      * destruct (as_strings vs) as [sn|e3] eqn:E3; [answer|].
        apply as_strings_raises in E3; subst e3; answer.
      * apply get_snippets_raises in E2; subst e2; answer.
    + apply iterate_raises in E1; subst e1; answer.
  - destruct e; answer.
Qed.


Lemma provider_honours_num : honours_num Examples.world.
Proof.
  intros key q cx num members items H1 H2.
  cbn in H1; unfold Examples.provider in H1.
  destruct (Z.ltb_spec num 1) as [Hlt|Hge]; [discriminate|].
  inversion H1; subst members; clear H1.
  cbn in H2; inversion H2; subst items; clear H2.
  rewrite length_firstn; lia.
Qed.

(** The texts handed back on the example worlds: three snippets joined, and
    the sentinels for an HTTP error, a broken connection and a missing
    credential. *)
Example execute_web_search_snippets :
  honours_num Examples.world
  /\ fst (Observe.run (_execute_web_search Examples.world "public holidays")
            Examples.store)
     = Ok "Christmas Day is on 25 December.   New Year's Day Seollal"%string.
Proof. split; [exact provider_honours_num | vm_compute; reflexivity]. Qed.

Example execute_web_search_failures :
  fst (Observe.run (_execute_web_search Examples.world_forbidden "public holidays")
         Examples.store)
  = Ok "Web search failed with HTTP error: 403"%string
  /\ fst (Observe.run (_execute_web_search Examples.world_offline "public holidays")
            Examples.store)
     = Ok UNEXPECTED_FAILURE
  /\ Observe.run (_execute_web_search Examples.world_unconfigured "public holidays")
       Examples.store
     = (Ok NOT_CONFIGURED,
        mk_state Examples.store [CallExecuteWebSearch "public holidays"]).
Proof. repeat split; vm_compute; reflexivity. Qed.

(** ** The two query wrappers *)

Lemma search_public_holidays_run (w : World) loc sd (st : state) :
  exists s,
    _search_public_holidays w loc sd st
    = (Ok s,
       mk_state (db st)
         (log st ++ CallSearchPublicHolidays loc sd
            :: search_events w (holiday_query loc sd))).
Proof.
  unfold _search_public_holidays, bind, record.
  destruct (execute_web_search_run w (holiday_query loc sd)
              (mk_state (db st) (log st ++ [CallSearchPublicHolidays loc sd])))
    as (s & Hrun & _).
  exists s. unfold holiday_query in *. rewrite Hrun. cbn [db log].
  now rewrite <- app_assoc.
Qed.

Lemma search_weather_forecast_run (w : World) loc sd (st : state) :
  exists s,
    _search_weather_forecast w loc sd st
    = (Ok s, mk_state (db st) (log st ++ weather_events w loc sd))
    /\ ((10 <? sub_days sd (now w)) = true -> s = NEAR_FUTURE_ONLY).
Proof.
  unfold _search_weather_forecast, weather_events, bind, record, ret.
  destruct (10 <? sub_days sd (now w)) eqn:E.
  - exists NEAR_FUTURE_ONLY; cbn [db log]; split; reflexivity.
  - destruct (execute_web_search_run w (weather_query loc sd)
                (mk_state (db st) (log st ++ [CallSearchWeatherForecast loc sd])))
      as (s & Hrun & _).
    exists s. unfold weather_query in *. rewrite Hrun. cbn [db log].
    rewrite <- app_assoc. split; [reflexivity | discriminate].
Qed.

Lemma gather_external_context_run (w : World) p req sd (st : state) :
  exists h wt,
    gather_external_context w p req sd st
    = (Ok (h, wt), mk_state (db st) (log st ++ context_events w p req sd))
    /\ (PyStr.truthy (models.location p) = false ->
        h = HOLIDAYS_NOT_AVAILABLE /\ wt = WEATHER_NOT_AVAILABLE)
    /\ (is_outdoor_request (schemas.prompt req) = false ->
        wt = WEATHER_NOT_AVAILABLE).
Proof.
  unfold gather_external_context, context_events.
  destruct (models.location p) as [[|c r]|] eqn:El; cbn [PyStr.truthy].
  1, 3: exists HOLIDAYS_NOT_AVAILABLE, WEATHER_NOT_AVAILABLE;
        unfold ret; rewrite app_nil_r; destruct st; cbn; repeat split.
  unfold bind.
  destruct (search_public_holidays_run w (String c r) sd st) as (h & Hh).
  rewrite Hh.
  destruct (is_outdoor_request (schemas.prompt req)) eqn:Eo.
  - destruct (search_weather_forecast_run w (String c r) sd
                (mk_state (db st)
                   (log st ++ CallSearchPublicHolidays (String c r) sd
                      :: search_events w (holiday_query (String c r) sd))))
      as (wt & Hw & _).
    rewrite Hw. exists h, wt. unfold ret; cbn [db log].
    rewrite <- app_assoc. repeat split; discriminate.
  - exists h, WEATHER_NOT_AVAILABLE. unfold ret.
    rewrite app_nil_r. repeat split; discriminate.
Qed.

(** ** The weather guard *)

(** The guard compares whole days: the lookup is skipped from eleven full
    days on. *)
Lemma weather_guard_whole_days (clock sd : datetime) :
  (10 <? sub_days sd clock) = true
  <-> 11 * us_per_day <= to_micro sd - to_micro clock.
Proof.
  unfold sub_days. rewrite Z.ltb_lt.
  assert (0 < us_per_day) as Hpos by (unfold us_per_day; lia).
  pose proof (Z.div_mod (to_micro sd - to_micro clock) us_per_day
                ltac:(lia)) as Hdm.
  pose proof (Z.mod_pos_bound (to_micro sd - to_micro clock) us_per_day Hpos).
  split; intro; nia.
Qed.

Lemma search_weather_forecast_guard (w : World) loc sd (st : state) :
  (11 * us_per_day <= to_micro sd - to_micro (now w) ->
   _search_weather_forecast w loc sd st
   = (Ok NEAR_FUTURE_ONLY,
      mk_state (db st) (log st ++ [CallSearchWeatherForecast loc sd])))
  /\ (to_micro sd - to_micro (now w) < 11 * us_per_day ->
      queries (log (snd (_search_weather_forecast w loc sd st)))
      = queries (log st) ++ [weather_query loc sd]).
Proof.
  destruct (search_weather_forecast_run w loc sd st) as (s & Hrun & Hfar).
  unfold weather_events in Hrun.
  split; intro H.
  - apply weather_guard_whole_days in H.
    rewrite Hrun, H in *. now rewrite (Hfar eq_refl).
  - destruct (10 <? sub_days sd (now w)) eqn:E.
    + apply weather_guard_whole_days in E; lia.
    + rewrite Hrun; cbn [snd log]. unfold queries, search_events.
      rewrite flat_map_app. f_equal.
      now destruct (configured w).
Qed.

(** C4 at ten days and a half.  The clock reads noon of 20 November 2025 and
    the start date is 1 December 2025: more than ten days ahead.  The weather
    tool does not return the near-future sentinel; it hands the query to the
    search tool and a request goes out to the provider. *)
Theorem weather_lookup_ten_and_a_half_days_ahead :
  more_than_ten_days_ahead (now Examples.world) Examples.first_of_december
  /\ sub_days Examples.first_of_december (now Examples.world) = 10
  /\ fst (Observe.run
            (_search_weather_forecast Examples.world "Seoul, Korea"
               Examples.first_of_december) Examples.store)
     <> Ok NEAR_FUTURE_ONLY
  /\ log (snd (Observe.run
                 (_search_weather_forecast Examples.world "Seoul, Korea"
                    Examples.first_of_december) Examples.store))
     = [CallSearchWeatherForecast "Seoul, Korea" Examples.first_of_december;
        CallExecuteWebSearch "weather forecast for Seoul, Korea on 2025-12-01";
        CseRequest "weather forecast for Seoul, Korea on 2025-12-01" "engine-id" 3].
Proof.
  split; [vm_compute; reflexivity|].
  split; [vm_compute; reflexivity|].
  split; [vm_compute; discriminate|].
  vm_compute; reflexivity.
Qed.

(** ** The recommendation flow, step by step *)

Lemma get_user_persona_run (st : state) :
  _get_user_persona st
  = match crud.get_persona (db st) with
    | Some p => (Ok p, st)
    | None => (Raise PERSONA_NOT_SET, st)
    end.
Proof.
  unfold _get_user_persona, bind, query, raise, ret.
  now destruct (crud.get_persona (db st)).
Qed.

Lemma run_recommendation_agent_no_persona (w : World) req (st : state) :
  crud.get_persona (db st) = None ->
  run_recommendation_agent w req st = (Raise PERSONA_NOT_SET, st).
Proof.
  intro Hp. unfold run_recommendation_agent, bind.
  now rewrite get_user_persona_run, Hp.
Qed.

Lemma run_recommendation_agent_bad_dates (w : World) req (st : state) p :
  crud.get_persona (db st) = Some p ->
  fromisoformat (schemas.start_date req) = None
  \/ fromisoformat (schemas.end_date req) = None ->
  run_recommendation_agent w req st = (Raise INVALID_DATE_FORMAT, st).
Proof.
  intros Hp Hbad. unfold run_recommendation_agent, bind.
  rewrite get_user_persona_run, Hp. unfold parse_dates, raise.
  destruct Hbad as [-> | ->]; [reflexivity|].
  now destruct (fromisoformat (schemas.start_date req)).
Qed.

(** With a persona and two well-formed dates the flow reaches the context
    step and then the model. *)
Lemma run_recommendation_agent_steps (w : World) req (st : state) p sd ed :
  crud.get_persona (db st) = Some p ->
  fromisoformat (schemas.start_date req) = Some sd ->
  fromisoformat (schemas.end_date req) = Some ed ->
  exists h wt,
    let prompt :=
      _build_final_prompt p (crud.get_schedules_by_date_range (db st) sd ed)
        req h wt in
    gather_external_context w p req sd st
    = (Ok (h, wt), mk_state (db st) (log st ++ context_events w p req sd))
    /\ run_recommendation_agent w req st
       = if PyStr.truthy (gemini_api_key w)
         then
           (match generate_content w "gemini-2.5-flash" prompt with
            | Ok text =>
                match parse_response text with
                | Ok r => Ok r
                | Raise e => Raise (RECOMMENDATION_FAILED e)
                end
            | Raise e => Raise (RECOMMENDATION_FAILED e)
            end,
            mk_state (db st)
              (log st ++ context_events w p req sd
                 ++ [ModelRequest "gemini-2.5-flash" prompt]))
         else
           (Raise GEMINI_NOT_CONFIGURED,
            mk_state (db st) (log st ++ context_events w p req sd)).
Proof.
  intros Hp Hs He.
  destruct (gather_external_context_run w p req sd st) as (h & wt & Hg & _).
  exists h, wt; cbn zeta; split; [exact Hg|].
  unfold run_recommendation_agent, bind.
  rewrite get_user_persona_run, Hp.
  unfold parse_dates; rewrite Hs, He; unfold ret at 1.
  unfold _get_existing_schedules, query.
  rewrite Hg; cbn [db log].
  destruct (PyStr.truthy (gemini_api_key w)); cbn [negb]; [|reflexivity].
  unfold try_except, bind, record, lift, raise; cbn [db log].
  rewrite <- app_assoc.
  destruct (generate_content w _ _) as [text|e]; [|reflexivity].
  now destruct (parse_response text).
Qed.

(** ** Missing persona and malformed dates *)

(** C6.  When the store holds no persona, a recommendation request fails with
    the 400 error "Persona not set", whatever the prompt and the dates; the
    store is left as it was, still without a persona, and nothing is logged:
    no default persona is made up on the way. *)
Theorem recommend_without_persona :
  forall (w : World) (req : schemas.AIRecommendationRequest) (st : state),
    crud.get_persona (db st) = None ->
    exists st',
      run_recommendation_agent w req st
      = (Raise (HTTPException 400 "Persona not set. Please create a persona first."
                  None), st')
      /\ st' = st
      /\ crud.get_persona (db st') = None.
Proof.
  intros w req st Hp. exists st.
  rewrite (run_recommendation_agent_no_persona w req st Hp).
  repeat split; assumption.
Qed.

Lemma recommend_without_persona_witness :
  crud.get_persona (db (mk_state Examples.empty_store [])) = None
  /\ exists st',
       run_recommendation_agent Examples.world Examples.run_request
         (mk_state Examples.empty_store [])
       = (Raise (HTTPException 400 "Persona not set. Please create a persona first."
                   None), st')
       /\ st' = mk_state Examples.empty_store []
       /\ crud.get_persona (db st') = None.
Proof.
  split; [reflexivity|].
  apply (recommend_without_persona Examples.world Examples.run_request
           (mk_state Examples.empty_store [])).
  reflexivity.
Defined.

(** C10.  The persona is looked up before the dates are read: with no persona
    in the store and a malformed start or end date, the request fails with
    the persona error and not with the date error. *)
Theorem persona_check_precedes_date_parsing :
  forall (w : World) (req : schemas.AIRecommendationRequest) (st : state),
    crud.get_persona (db st) = None ->
    fromisoformat (schemas.start_date req) = None
    \/ fromisoformat (schemas.end_date req) = None ->
    fst (run_recommendation_agent w req st) = Raise PERSONA_NOT_SET
    /\ fst (run_recommendation_agent w req st) <> Raise INVALID_DATE_FORMAT.
Proof.
  intros w req st Hp _.
  rewrite (run_recommendation_agent_no_persona w req st Hp); cbn [fst].
  split; [reflexivity | discriminate].
Qed.

Lemma persona_check_precedes_date_parsing_witness :
  crud.get_persona (db (mk_state Examples.empty_store [])) = None
  /\ (fromisoformat (schemas.start_date Examples.malformed_request) = None
      \/ fromisoformat (schemas.end_date Examples.malformed_request) = None)
  /\ fst (run_recommendation_agent Examples.world Examples.malformed_request
            (mk_state Examples.empty_store []))
     = Raise PERSONA_NOT_SET
  /\ fst (run_recommendation_agent Examples.world Examples.malformed_request
            (mk_state Examples.empty_store []))
     <> Raise INVALID_DATE_FORMAT.
Proof.
  split; [reflexivity|].
  split; [left; reflexivity|].
  apply (persona_check_precedes_date_parsing Examples.world
           Examples.malformed_request (mk_state Examples.empty_store [])).
  - reflexivity.
  - left; reflexivity.
Defined.

(** The same malformed request against a store with a persona does reach the
    date check. *)
Example malformed_dates_with_persona :
  fst (run_recommendation_agent Examples.world Examples.malformed_request
         (mk_state Examples.store []))
  = Raise INVALID_DATE_FORMAT.
Proof. reflexivity. Qed.

(** ** Decoding and validating the answer of the model *)









(** ** Outcomes of the recommendation flow *)

Lemma run_recommendation_agent_db (w : World) req (st : state) :
  db (snd (run_recommendation_agent w req st)) = db st.
Proof.
  destruct (crud.get_persona (db st)) as [p|] eqn:Hp;
    [|now rewrite run_recommendation_agent_no_persona].
  destruct (fromisoformat (schemas.start_date req)) as [sd|] eqn:Hs;
    [|rewrite (run_recommendation_agent_bad_dates w req st p); auto].
  destruct (fromisoformat (schemas.end_date req)) as [ed|] eqn:He;
    [|rewrite (run_recommendation_agent_bad_dates w req st p); auto].
  destruct (run_recommendation_agent_steps w req st p sd ed Hp Hs He)
    as (h & wt & _ & ->).
  now destruct (PyStr.truthy (gemini_api_key w)).
Qed.





(** ** The decision on external searches *)









(** ** Writing the persona *)

Lemma create_or_update_persona_stored utc srv d pc :
  let '(d', p') := crud.create_or_update_persona utc srv d pc in
  crud.get_persona d' = Some p'
  /\ models.schedules d' = models.schedules d
  /\ tl (models.personas d') = tl (models.personas d)
  /\ models.persona_text p' = schemas.persona_text pc
  /\ models.preferred_times p' = schemas.preferred_times pc
  /\ models.focus_duration p' = schemas.focus_duration pc
  /\ models.location p' = schemas.location pc.
Proof.
  unfold crud.create_or_update_persona, crud.get_persona.
  destruct (models.personas d) as [|p rest]; cbn; repeat split.
Qed.


Lemma run_persona_update_agent_no_persona (w : World) (st : state) :
  crud.get_persona (db st) = None ->
  run_persona_update_agent w st = (Raise PERSONA_NOT_SET, st).
Proof.
  intro Hp. unfold run_persona_update_agent, bind.
  now rewrite get_user_persona_run, Hp.
Qed.

Lemma run_persona_update_agent_steps (w : World) (st : state) p :
  crud.get_persona (db st) = Some p ->
  run_persona_update_agent w st
  = if PyStr.truthy (gemini_api_key w)
    then
      match generate_content w "gemini-2.5-flash" (update_prompt w (db st) p) with
      | Ok text =>
          let '(d', p') :=
            crud.create_or_update_persona (utcnow w) (server_now w) (db st)
              (updated_persona_data p text) in
          (Ok p',
           mk_state d'
             (log st ++ [ModelRequest "gemini-2.5-flash" (update_prompt w (db st) p)]))
      | Raise e =>
          (Raise (PERSONA_UPDATE_FAILED e),
           mk_state (db st)
             (log st ++ [ModelRequest "gemini-2.5-flash" (update_prompt w (db st) p)]))
      end
    else (Raise GEMINI_NOT_CONFIGURED, st).
Proof.
  intro Hp. unfold run_persona_update_agent, bind.
  rewrite get_user_persona_run, Hp.
  unfold _get_existing_schedules, query.
  fold (update_prompt w (db st) p).
  destruct (PyStr.truthy (gemini_api_key w)); cbn [negb]; [|reflexivity].
  unfold try_except, bind, record, lift, raise, commit; cbn [db log].
  destruct (generate_content w _ _) as [text|e]; [|reflexivity].
  fold (updated_persona_data p text).
  now destruct (crud.create_or_update_persona _ _ _ _).
Qed.





(** * Further properties of the store and of the routes *)

Import Invariants.

(** ** Keys of the schedules *)

Lemma next_schedule_id_above rows s :
  In s rows -> models.schedule_id s < crud.next_schedule_id rows.
Proof.
  unfold crud.next_schedule_id.
  induction rows as [|x r IH]; cbn [fold_right In]; [contradiction|].
  intros [->|H]; [lia|]. specialize (IH H). lia.
Qed.

Lemma next_schedule_id_fresh rows :
  ~ In (crud.next_schedule_id rows) (map models.schedule_id rows).
Proof.
  intro H. apply in_map_iff in H. destruct H as (s & Hs & Hin).
  apply next_schedule_id_above in Hin. lia.
Qed.

Lemma find_key_absent k rows :
  ~ In k (map models.schedule_id rows) ->
  find (fun s => models.schedule_id s =? k) rows = None.
Proof.
  induction rows as [|x r IH]; cbn; [reflexivity|].
  intro H. destruct (Z.eqb_spec (models.schedule_id x) k) as [E|E].
  - exfalso; apply H; now left.
  - apply IH. intro Hin; apply H; now right.
Qed.

Lemma find_key_app k rows more :
  find (fun s => models.schedule_id s =? k) (rows ++ more)
  = match find (fun s => models.schedule_id s =? k) rows with
    | Some s => Some s
    | None => find (fun s => models.schedule_id s =? k) more
    end.
Proof.
  induction rows as [|x r IH]; cbn; [reflexivity|].
  now destruct (models.schedule_id x =? k).
Qed.

Lemma find_key_some k rows s :
  find (fun s => models.schedule_id s =? k) rows = Some s ->
  In s rows /\ models.schedule_id s = k.
Proof.
  intro H. apply find_some in H. destruct H as [Hin Hk].
  split; [exact Hin | now apply Z.eqb_eq].
Qed.

Lemma new_schedule_id k now b ai reason :
  models.schedule_id (crud.new_schedule k now b ai reason) = k.
Proof. reflexivity. Qed.

(** X1.  A schedule created by [create_schedule] is found again under the key
    it was given: the row carries the five fields of the request, is not
    marked as generated and has no reason; its key was not in use, every
    other key still leads to the row it led to, and the personas are
    untouched. *)
Theorem create_schedule_then_get :
  forall (server_now : datetime) (d : models.Session)
         (schedule : schemas.ScheduleCreate),
    let d' := fst (crud.create_schedule server_now d schedule) in
    let row := snd (crud.create_schedule server_now d schedule) in
    crud.get_schedule d' (models.schedule_id row) = Some row
    /\ carries schedule row
    /\ models.is_ai_generated row = false
    /\ models.ai_reason row = None
    /\ ~ In (models.schedule_id row) (schedule_ids d)
    /\ (forall k, k <> models.schedule_id row ->
                  crud.get_schedule d' k = crud.get_schedule d k)
    /\ models.schedules d' = models.schedules d ++ [row]
    /\ models.personas d' = models.personas d.
Proof.
  intros server_now d schedule d' row; subst d' row.
  unfold crud.create_schedule, crud.get_schedule, schedule_ids.
  cbn [fst snd models.schedules models.personas].
  pose proof (next_schedule_id_fresh (models.schedules d)) as Hfresh.
  rewrite new_schedule_id.
  split.
  { rewrite find_key_app, (find_key_absent _ _ Hfresh).
    cbn [find]. now rewrite new_schedule_id, Z.eqb_refl. }
  split; [repeat split|].
  split; [reflexivity|]. split; [reflexivity|].
  split; [exact Hfresh|].
  split; [|split; reflexivity].
  intros k Hk. rewrite find_key_app.
  destruct (find _ (models.schedules d)); [reflexivity|].
  cbn [find]. rewrite new_schedule_id.
  destruct (Z.eqb_spec (crud.next_schedule_id (models.schedules d)) k);
    [congruence | reflexivity].
Qed.

Lemma rewrite_row_ids k f rows :
  (forall s, models.schedule_id (f s) = models.schedule_id s) ->
  map models.schedule_id (crud.rewrite_row k f rows)
  = map models.schedule_id rows.
Proof.
  intro Hf. induction rows as [|x r IH]; cbn; [reflexivity|].
  destruct (models.schedule_id x =? k); cbn; [now rewrite Hf | now rewrite IH].
Qed.

Lemma rewrite_row_find k f rows k' :
  (forall s, models.schedule_id (f s) = models.schedule_id s) ->
  find (fun s => models.schedule_id s =? k') (crud.rewrite_row k f rows)
  = if k' =? k
    then option_map f (find (fun s => models.schedule_id s =? k) rows)
    else find (fun s => models.schedule_id s =? k') rows.
Proof.
  intro Hf. induction rows as [|x r IH]; cbn [crud.rewrite_row find].
  - now destruct (k' =? k).
  - destruct (Z.eqb_spec (models.schedule_id x) k) as [E|E]; cbn [find].
    + rewrite Hf, E. destruct (Z.eqb_spec k k') as [<-|N].
      * now rewrite Z.eqb_refl.
      * destruct (Z.eqb_spec k' k); [congruence | reflexivity].
    + rewrite IH.
      destruct (Z.eqb_spec (models.schedule_id x) k') as [E'|E'].
      * destruct (Z.eqb_spec k' k); [congruence | reflexivity].
      * reflexivity.
Qed.

Lemma rewrite_row_length k f rows :
  List.length (crud.rewrite_row k f rows) = List.length rows.
Proof.
  induction rows as [|x r IH]; cbn; [reflexivity|].
  destruct (models.schedule_id x =? k); cbn; congruence.
Qed.

Lemma remove_row_incl k rows x :
  In x (crud.remove_row k rows) -> In x rows.
Proof.
  induction rows as [|y r IH]; cbn; [tauto|].
  destruct (models.schedule_id y =? k); cbn; tauto.
Qed.

Lemma remove_row_unique k rows :
  NoDup (map models.schedule_id rows) ->
  NoDup (map models.schedule_id (crud.remove_row k rows))
  /\ ~ In k (map models.schedule_id (crud.remove_row k rows)).
Proof.
  induction rows as [|x r IH]; cbn [crud.remove_row map]; intro H.
  - split; [constructor | intros []].
  - inversion H as [|? ? Hx Hr]; subst.
    destruct (Z.eqb_spec (models.schedule_id x) k) as [E|E].
    + split; [exact Hr | now rewrite <- E].
    + destruct (IH Hr) as [H1 H2]. cbn [map]. split.
      * constructor; [|exact H1].
        intro Hin. apply Hx. apply in_map_iff in Hin.
        destruct Hin as (y & Hy & Hin). apply in_map_iff.
        exists y; split; [exact Hy | now apply remove_row_incl in Hin].
      * intros [Hk|Hk]; [congruence | now apply H2].
Qed.

Lemma remove_row_find k rows k' :
  k' <> k ->
  find (fun s => models.schedule_id s =? k') (crud.remove_row k rows)
  = find (fun s => models.schedule_id s =? k') rows.
Proof.
  intro Hk. induction rows as [|x r IH]; cbn [crud.remove_row find];
    [reflexivity|].
  destruct (Z.eqb_spec (models.schedule_id x) k) as [E|E]; cbn [find].
  - destruct (Z.eqb_spec (models.schedule_id x) k'); [congruence | reflexivity].
  - now rewrite IH.
Qed.

Lemma remove_row_length k rows s :
  find (fun s => models.schedule_id s =? k) rows = Some s ->
  S (List.length (crud.remove_row k rows)) = List.length rows.
Proof.
  induction rows as [|x r IH]; cbn [crud.remove_row find]; [discriminate|].
  destruct (models.schedule_id x =? k); cbn [List.length]; [reflexivity|].
  intro H; now rewrite IH.
Qed.

Lemma add_all_spec server_now items : forall rows,
  let '(table, created) := crud.add_all server_now rows items in
  table = rows ++ created
  /\ List.length created = List.length items
  /\ (NoDup (map models.schedule_id rows) ->
      NoDup (map models.schedule_id table))
  /\ Forall2 (fun i row =>
                carries (schemas.item_base i) row
                /\ models.is_ai_generated row = schemas.item_is_ai_generated i
                /\ models.ai_reason row = schemas.item_ai_reason i
                /\ models.schedule_created_at row = server_now)
       items created.
Proof.
  induction items as [|i rest IH]; intro rows; cbn [crud.add_all].
  - rewrite app_nil_r. repeat split; [auto | constructor].
  - specialize (IH (rows ++ [crud.new_schedule (crud.next_schedule_id rows)
                               server_now (schemas.item_base i)
                               (schemas.item_is_ai_generated i)
                               (schemas.item_ai_reason i)])).
    destruct (crud.add_all server_now _ rest) as [table created].
    destruct IH as (Ht & Hl & Hn & Hf).
    split; [now rewrite Ht, <- app_assoc|].
    split; [cbn; now rewrite Hl|].
    split.
    + intro Hnd. apply Hn. rewrite map_app. cbn [map].
      rewrite new_schedule_id.
      apply NoDup_app; [exact Hnd | repeat constructor; intros [] |].
      intros k Hk [<-|[]]. now apply (next_schedule_id_fresh rows).
    + constructor; [|exact Hf]. repeat split.
Qed.

Lemma set_fields_id sc s :
  models.schedule_id (crud.set_fields sc s) = models.schedule_id s.
Proof. reflexivity. Qed.

Lemma set_is_completed_id b s :
  models.schedule_id (crud.set_is_completed b s) = models.schedule_id s.
Proof. reflexivity. Qed.

(** Every write of [crud.py] to the schedules keeps their keys distinct. *)
Lemma crud_writes_keep_keys_unique server_now d :
  unique_ids d ->
  (forall sc, unique_ids (fst (crud.create_schedule server_now d sc)))
  /\ (forall items, unique_ids (fst (crud.bulk_create_schedules server_now d items)))
  /\ (forall k sc, unique_ids (fst (crud.update_schedule d k sc)))
  /\ (forall k b, unique_ids (fst (crud.update_schedule_status d k b)))
  /\ (forall k, unique_ids (fst (crud.delete_schedule d k))).
Proof.
  unfold unique_ids, schedule_ids. intro H. repeat split.
  - intro sc. unfold crud.create_schedule; cbn [fst models.schedules].
    rewrite map_app. cbn [map]. rewrite new_schedule_id.
    apply NoDup_app; [exact H | repeat constructor; intros [] |].
    intros k Hk [<-|[]]. now apply (next_schedule_id_fresh (models.schedules d)).
  - intro items. unfold crud.bulk_create_schedules.
    pose proof (add_all_spec server_now items (models.schedules d)) as Ha.
    destruct (crud.add_all _ _ _) as [table created].
    cbn [fst models.schedules]. now apply Ha.
  - intros k sc. unfold crud.update_schedule.
    destruct (crud.get_schedule d k); cbn [fst models.schedules]; [|exact H].
    rewrite rewrite_row_ids; [exact H | apply set_fields_id].
  - intros k b. unfold crud.update_schedule_status.
    destruct (crud.get_schedule d k); cbn [fst models.schedules]; [|exact H].
    rewrite rewrite_row_ids; [exact H | apply set_is_completed_id].
  - intro k. unfold crud.delete_schedule.
    destruct (crud.get_schedule d k); cbn [fst models.schedules]; [|exact H].
    now apply remove_row_unique.
Qed.

(** X2.  With distinct keys in the table, [delete_schedule] on a key in use
    returns the row stored under it and removes exactly that row: the key
    is free afterwards and the table is one row shorter.  On an unknown key
    it returns nothing and leaves the store as it was.  In both cases every
    other key leads to the row it led to, no row is added and the personas
    are untouched. *)
Theorem delete_schedule_removes_one_row :
  forall (d : models.Session) (k : Z),
    unique_ids d ->
    let d' := fst (crud.delete_schedule d k) in
    match snd (crud.delete_schedule d k) with
    | Some s =>
        crud.get_schedule d k = Some s
        /\ crud.get_schedule d' k = None
        /\ S (List.length (models.schedules d')) = List.length (models.schedules d)
    | None => crud.get_schedule d k = None /\ d' = d
    end
    /\ (forall k', k' <> k -> crud.get_schedule d' k' = crud.get_schedule d k')
    /\ incl (models.schedules d') (models.schedules d)
    /\ models.personas d' = models.personas d.
Proof.
  intros d k Hu d'; subst d'. unfold crud.delete_schedule.
  destruct (crud.get_schedule d k) as [s|] eqn:Eg; cbn [fst snd];
    [|repeat split; auto using incl_refl].
  unfold crud.get_schedule in *; cbn [models.schedules models.personas].
  split; [split; [reflexivity|split]|split; [|split]].
  - apply find_key_absent. now apply remove_row_unique.
  - now apply remove_row_length with (s := s).
  - intros k' Hk. now apply remove_row_find.
  - intros x Hx. now apply remove_row_incl in Hx.
  - reflexivity.
Qed.

Lemma example_store_unique : unique_ids Examples.store.
Proof.
  unfold unique_ids, schedule_ids; cbn.
  repeat constructor; cbn; intuition discriminate.
Qed.

Lemma delete_schedule_removes_one_row_witness :
  unique_ids Examples.store
  /\ crud.get_schedule (fst (crud.delete_schedule Examples.store 2)) 2 = None
  /\ option_map models.title
       (crud.get_schedule (fst (crud.delete_schedule Examples.store 2)) 1)
     = Some "Dentist"%string.
Proof.
  split; [exact example_store_unique|].
  pose proof (delete_schedule_removes_one_row Examples.store 2
                example_store_unique) as H.
  cbv zeta in H. destruct H as (H1 & H2 & _).
  split.
  - destruct (snd (crud.delete_schedule Examples.store 2)) eqn:E;
      [now destruct H1 as (_ & ? & _) | discriminate E].
  - rewrite (H2 1) by discriminate. reflexivity.
Defined.

(** X3.  [update_schedule] on a key in use rewrites the five fields of the
    request and nothing else: the row returned, which is the row found under
    the key afterwards, has the key, the creation time and the two provenance
    fields of the row before.  On an unknown key it returns nothing and
    leaves the store as it was.  In both cases the keys of the table, the
    rows under the other keys and the personas are unchanged. *)
Theorem update_schedule_rewrites_request_fields :
  forall (d : models.Session) (k : Z) (schedule : schemas.ScheduleCreate),
    let d' := fst (crud.update_schedule d k schedule) in
    match snd (crud.update_schedule d k schedule) with
    | Some s' =>
        exists s,
          crud.get_schedule d k = Some s
          /\ crud.get_schedule d' k = Some s'
          /\ carries schedule s'
          /\ same_origin s' s
    | None => crud.get_schedule d k = None /\ d' = d
    end
    /\ (forall k', k' <> k -> crud.get_schedule d' k' = crud.get_schedule d k')
    /\ schedule_ids d' = schedule_ids d
    /\ models.personas d' = models.personas d.
Proof.
  intros d k schedule d'; subst d'. unfold crud.update_schedule, schedule_ids.
  destruct (crud.get_schedule d k) as [s|] eqn:Eg; cbn [fst snd];
    [|repeat split; auto].
  unfold crud.get_schedule in *; cbn [models.schedules models.personas].
  split; [|split; [|split]].
  - exists s. split; [reflexivity|]. split.
    + rewrite rewrite_row_find by apply set_fields_id.
      now rewrite Z.eqb_refl, Eg.
    + repeat split.
  - intros k' Hk. rewrite rewrite_row_find by apply set_fields_id.
    destruct (Z.eqb_spec k' k); [congruence | reflexivity].
  - apply rewrite_row_ids, set_fields_id.
  - reflexivity.
Qed.

Lemma rewrite_row_twice k f g rows :
  (forall s, models.schedule_id (f s) = models.schedule_id s) ->
  crud.rewrite_row k g (crud.rewrite_row k f rows)
  = crud.rewrite_row k (fun s => g (f s)) rows.
Proof.
  intro Hf. induction rows as [|x r IH]; cbn [crud.rewrite_row]; [reflexivity|].
  destruct (Z.eqb_spec (models.schedule_id x) k) as [E|E]; cbn [crud.rewrite_row].
  - now rewrite Hf, <- E, Z.eqb_refl.
  - destruct (Z.eqb_spec (models.schedule_id x) k); [contradiction|].
    now rewrite IH.
Qed.

Lemma rewrite_row_same k f rows s :
  find (fun s => models.schedule_id s =? k) rows = Some s ->
  f s = s ->
  crud.rewrite_row k f rows = rows.
Proof.
  intros Hfind Hf. induction rows as [|x r IH]; cbn [crud.rewrite_row find] in *;
    [reflexivity|].
  destruct (models.schedule_id x =? k).
  - inversion Hfind; subst; now rewrite Hf.
  - now rewrite IH.
Qed.

Lemma update_schedule_status_found d k b s :
  crud.get_schedule d k = Some s ->
  crud.update_schedule_status d k b
  = (models.mk_Session (models.personas d)
       (crud.rewrite_row k (crud.set_is_completed b) (models.schedules d)),
     Some (crud.set_is_completed b s)).
Proof. intro H. unfold crud.update_schedule_status. now rewrite H. Qed.

Lemma update_schedule_status_unknown d k b :
  crud.get_schedule d k = None ->
  crud.update_schedule_status d k b = (d, None).
Proof. intro H. unfold crud.update_schedule_status. now rewrite H. Qed.

(** X4.  [update_schedule_status] on a key in use sets [is_completed] to the
    value given and changes no other field of the row, no other row and no
    persona; on an unknown key it returns nothing and leaves the store as it
    was.  Setting the same value a second time changes nothing more, and
    setting the value the row had before brings the store back exactly. *)
Theorem update_schedule_status_sets_the_flag_only :
  forall (d : models.Session) (k : Z) (b : bool),
    let d' := fst (crud.update_schedule_status d k b) in
    match snd (crud.update_schedule_status d k b) with
    | Some s' =>
        exists s,
          crud.get_schedule d k = Some s
          /\ crud.get_schedule d' k = Some s'
          /\ models.is_completed s' = b
          /\ models.title s' = models.title s
          /\ models.description s' = models.description s
          /\ models.start_datetime s' = models.start_datetime s
          /\ models.end_datetime s' = models.end_datetime s
          /\ same_origin s' s
          /\ fst (crud.update_schedule_status d' k (models.is_completed s)) = d
    | None => crud.get_schedule d k = None /\ d' = d
    end
    /\ fst (crud.update_schedule_status d' k b) = d'
    /\ (forall k', k' <> k -> crud.get_schedule d' k' = crud.get_schedule d k')
    /\ schedule_ids d' = schedule_ids d
    /\ models.personas d' = models.personas d.
Proof.
  intros d k b d'; subst d'. unfold schedule_ids.
  destruct (crud.get_schedule d k) as [s|] eqn:Eg.
  2:{ rewrite !(update_schedule_status_unknown d k b Eg); cbn [fst snd].
      rewrite (update_schedule_status_unknown d k b Eg).
      repeat split; auto. }
  rewrite !(update_schedule_status_found d k b s Eg); cbn [fst snd].
  assert (Hget : forall c,
            crud.get_schedule
              (models.mk_Session (models.personas d)
                 (crud.rewrite_row k (crud.set_is_completed c) (models.schedules d)))
              k = Some (crud.set_is_completed c s)).
  { intro c. unfold crud.get_schedule in *; cbn [models.schedules].
    rewrite rewrite_row_find by apply set_is_completed_id.
    now rewrite Z.eqb_refl, Eg. }
  assert (Htwice : forall c c',
            fst (crud.update_schedule_status
                   (models.mk_Session (models.personas d)
                      (crud.rewrite_row k (crud.set_is_completed c)
                         (models.schedules d))) k c')
            = models.mk_Session (models.personas d)
                (crud.rewrite_row k (crud.set_is_completed c') (models.schedules d))).
  { intros c c'. rewrite (update_schedule_status_found _ k c' _ (Hget c)).
    cbn [fst models.personas models.schedules].
    rewrite rewrite_row_twice by apply set_is_completed_id.
    reflexivity. }
  split; [|split; [|split; [|split]]].
  - exists s. split; [reflexivity|]. split; [apply Hget|].
    do 5 (split; [reflexivity|]). split; [repeat split|].
    rewrite Htwice. unfold crud.get_schedule in Eg.
    rewrite (rewrite_row_same k _ _ s Eg); [now destruct d | now destruct s].
  - apply Htwice.
  - intros k' Hk. unfold crud.get_schedule; cbn [models.schedules].
    rewrite rewrite_row_find by apply set_is_completed_id.
    destruct (Z.eqb_spec k' k); [congruence | reflexivity].
  - cbn [models.schedules]. apply rewrite_row_ids, set_is_completed_id.
  - reflexivity.
Qed.

Lemma add_all_keys server_now items : forall rows,
  let created := snd (crud.add_all server_now rows items) in
  Forall (fun row => forall s, In s rows ->
                               models.schedule_id s < models.schedule_id row)
         created
  /\ NoDup (map models.schedule_id created).
Proof.
  induction items as [|i rest IH]; intro rows; cbn [crud.add_all].
  - cbn; split; constructor.
  - set (row := crud.new_schedule (crud.next_schedule_id rows) server_now
                  (schemas.item_base i) (schemas.item_is_ai_generated i)
                  (schemas.item_ai_reason i)).
    specialize (IH (rows ++ [row])).
    destruct (crud.add_all server_now (rows ++ [row]) rest) as [table created].
    cbn [snd] in *. destruct IH as [Hall Hnd]. split.
    + constructor.
      * intros s Hs. subst row. rewrite new_schedule_id.
        now apply next_schedule_id_above.
      * eapply Forall_impl; [|exact Hall].
        intros r Hr s Hs. apply Hr, in_or_app; now left.
    + cbn [map]. constructor; [|exact Hnd].
      intro Hin. apply in_map_iff in Hin. destruct Hin as (r & Hr & Hin).
      rewrite Forall_forall in Hall.
      assert (Hrow : In row (rows ++ [row])) by (apply in_or_app; right; now left).
      specialize (Hall r Hin row Hrow). lia.
Qed.

Lemma find_key_unique_app k rows created row :
  (forall s, In s rows -> models.schedule_id s < models.schedule_id row) ->
  NoDup (map models.schedule_id created) ->
  In row created ->
  k = models.schedule_id row ->
  find (fun s => models.schedule_id s =? k) (rows ++ created) = Some row.
Proof.
  intros Hlow Hnd Hin ->. rewrite find_key_app.
  rewrite find_key_absent.
  2:{ intro H. apply in_map_iff in H. destruct H as (s & Hs & Hsin).
      specialize (Hlow s Hsin). lia. }
  clear Hlow. induction created as [|x r IH]; [contradiction|].
  cbn [map] in Hnd. inversion Hnd as [|? ? Hx Hr]; subst. cbn [find].
  destruct Hin as [->|Hin]; [now rewrite Z.eqb_refl|].
  destruct (Z.eqb_spec (models.schedule_id x) (models.schedule_id row)) as [E|E].
  - exfalso. apply Hx. rewrite E. now apply in_map.
  - now apply IH.
Qed.

(** X5.  [bulk_create_schedules] appends one row per item, in the order of
    the items: each row carries the fields, the provenance flag and the
    reason of its item; the new keys are distinct and were not in use, so
    each returned row is found again under its key; the personas are
    untouched. *)
Theorem bulk_create_schedules_appends_every_item :
  forall (server_now : datetime) (d : models.Session)
         (items : list schemas.ScheduleBulkCreateItem),
    let d' := fst (crud.bulk_create_schedules server_now d items) in
    let created := snd (crud.bulk_create_schedules server_now d items) in
    models.schedules d' = models.schedules d ++ created
    /\ List.length created = List.length items
    /\ Forall2 (fun i row =>
                  carries (schemas.item_base i) row
                  /\ models.is_ai_generated row = schemas.item_is_ai_generated i
                  /\ models.ai_reason row = schemas.item_ai_reason i
                  /\ models.schedule_created_at row = server_now)
         items created
    /\ NoDup (map models.schedule_id created)
    /\ (forall row, In row created ->
                    ~ In (models.schedule_id row) (schedule_ids d)
                    /\ crud.get_schedule d' (models.schedule_id row) = Some row)
    /\ models.personas d' = models.personas d.
Proof.
  intros server_now d items d' created; subst d' created.
  unfold crud.bulk_create_schedules, schedule_ids.
  pose proof (add_all_spec server_now items (models.schedules d)) as Hs.
  pose proof (add_all_keys server_now items (models.schedules d)) as Hk.
  destruct (crud.add_all server_now (models.schedules d) items) as [table created].
  cbn [fst snd models.schedules models.personas] in *.
  destruct Hs as (Ht & Hl & _ & Hf). destruct Hk as [Hall Hnd].
  rewrite Forall_forall in Hall.
  repeat split; try assumption.
  - intro Hin. apply in_map_iff in Hin. destruct Hin as (s & Hs & Hsin).
    specialize (Hall row H s Hsin). lia.
  - unfold crud.get_schedule; cbn [models.schedules]. subst table.
    apply find_key_unique_app; auto.
Qed.

(** ** The range query after a write *)

Lemma range_membership d s e x :
  In x (crud.get_schedules_by_date_range d s e)
  <-> In x (models.schedules d) /\ within s e x.
Proof.
  unfold crud.get_schedules_by_date_range. split.
  - intro H. apply (Permutation_in _ (order_by_start_perm _)) in H.
    apply filter_In in H. now rewrite in_range_within in H.
  - intros [H1 H2].
    apply (Permutation_in _ (Permutation_sym (order_by_start_perm _))).
    apply filter_In. split; [exact H1 | now apply in_range_within].
Qed.

(** X6.  After [create_schedule], the range query returns what it returned
    before, and the new row as well exactly when the new row starts at or
    after the start of the range and ends at or before its end. *)
Theorem range_query_after_create :
  forall (server_now : datetime) (d : models.Session)
         (schedule : schemas.ScheduleCreate) (s e : datetime)
         (x : models.Schedule),
    let d' := fst (crud.create_schedule server_now d schedule) in
    let row := snd (crud.create_schedule server_now d schedule) in
    In x (crud.get_schedules_by_date_range d' s e)
    <-> In x (crud.get_schedules_by_date_range d s e)
        \/ (x = row
            /\ to_micro s <= to_micro (schemas.sb_start_datetime schedule)
            /\ to_micro (schemas.sb_end_datetime schedule) <= to_micro e).
Proof.
  intros server_now d schedule s e x d' row; subst d' row.
  rewrite !range_membership.
  unfold crud.create_schedule; cbn [fst snd models.schedules].
  rewrite in_app_iff. cbn [In]. unfold within at 1. split.
  - intros [[H|[H|[]]] Hw]; [left; now split|].
    right. subst x. now split.
  - intros [[H Hw]|(-> & H1 & H2)].
    + split; [now left | exact Hw].
    + split; [right; now left | now split].
Qed.

Lemma remove_row_membership k rows x :
  NoDup (map models.schedule_id rows) ->
  In x (crud.remove_row k rows) <-> In x rows /\ models.schedule_id x <> k.
Proof.
  intro Hnd. induction rows as [|y r IH]; cbn [crud.remove_row In map] in *.
  - tauto.
  - inversion Hnd as [|? ? Hy Hr]; subst. specialize (IH Hr).
    destruct (Z.eqb_spec (models.schedule_id y) k) as [E|E].
    + split.
      * intro H. split; [now right|]. intro Hk. apply Hy.
        rewrite E, <- Hk. now apply in_map.
      * intros [[->|H] Hk]; [congruence | exact H].
    + cbn [In]. rewrite IH. split.
      * intros [->|[H Hk]]; [split; [now left | exact E] | split; [now right | exact Hk]].
      * intros [[->|H] Hk]; [now left | right; now split].
Qed.

(** X7.  With distinct keys in the table, after [delete_schedule] on key [k]
    the range query returns exactly the rows it returned before whose key is
    not [k]. *)
Theorem range_query_after_delete :
  forall (d : models.Session) (k : Z) (s e : datetime) (x : models.Schedule),
    unique_ids d ->
    In x (crud.get_schedules_by_date_range (fst (crud.delete_schedule d k)) s e)
    <-> In x (crud.get_schedules_by_date_range d s e)
        /\ models.schedule_id x <> k.
Proof.
  intros d k s e x Hu. rewrite !range_membership.
  unfold crud.delete_schedule.
  destruct (crud.get_schedule d k) as [row|] eqn:Eg; cbn [fst models.schedules].
  - rewrite (remove_row_membership k _ x Hu). tauto.
  - split; [|tauto]. intros [Hin Hw].
    split; [now split|]. unfold crud.get_schedule in Eg.
    pose proof (find_none _ _ Eg x Hin) as Hne. cbn beta in Hne.
    now apply Z.eqb_neq in Hne.
Qed.

Lemma range_query_after_delete_witness :
  unique_ids Examples.store
  /\ map models.title
       (crud.get_schedules_by_date_range (fst (crud.delete_schedule Examples.store 2))
          (Examples.at_midnight 2025 12 1) (Examples.at_midnight 2025 12 7))
     = ["Dentist"%string]
  /\ forall x,
       In x (crud.get_schedules_by_date_range
               (fst (crud.delete_schedule Examples.store 2))
               (Examples.at_midnight 2025 12 1) (Examples.at_midnight 2025 12 7))
       <-> In x (crud.get_schedules_by_date_range Examples.store
                   (Examples.at_midnight 2025 12 1) (Examples.at_midnight 2025 12 7))
           /\ models.schedule_id x <> 2.
Proof.
  split; [exact example_store_unique|].
  split; [reflexivity|].
  intro x.
  apply (range_query_after_delete Examples.store 2 _ _ x example_store_unique).
Defined.

(** X8.  Widening the range never loses a schedule: every row returned for a
    range is returned for any range that starts no later and ends no
    earlier. *)
Theorem range_query_is_monotone :
  forall (d : models.Session) (s e s' e' : datetime),
    to_micro s' <= to_micro s ->
    to_micro e <= to_micro e' ->
    incl (crud.get_schedules_by_date_range d s e)
         (crud.get_schedules_by_date_range d s' e').
Proof.
  intros d s e s' e' Hs He x Hx.
  apply range_membership in Hx. apply range_membership.
  destruct Hx as [Hin [H1 H2]]. split; [exact Hin|]. unfold within. lia.
Qed.

Lemma range_query_is_monotone_witness :
  to_micro (Examples.at_midnight 2025 12 1) <= to_micro (Examples.at_midnight 2025 12 3)
  /\ to_micro (Examples.at_midnight 2025 12 4) <= to_micro (Examples.at_midnight 2025 12 7)
  /\ incl (crud.get_schedules_by_date_range Examples.store
             (Examples.at_midnight 2025 12 3) (Examples.at_midnight 2025 12 4))
          (crud.get_schedules_by_date_range Examples.store
             (Examples.at_midnight 2025 12 1) (Examples.at_midnight 2025 12 7)).
Proof.
  split; [vm_compute; discriminate|]. split; [vm_compute; discriminate|].
  apply range_query_is_monotone; vm_compute; discriminate.
Defined.

(** ** The persona *)

(** X9.  [create_or_update_persona] keeps the persona a single record: on a
    table with at most one row it leaves exactly one, and a second call with
    the same fields returns a record with the same key, the same creation
    time and the same four fields; only [updated_at] is set anew.  The
    schedules are untouched. *)
Theorem upsert_persona_twice :
  forall (utc1 srv1 utc2 srv2 : datetime) (d : models.Session)
         (persona : schemas.PersonaCreate),
    let d1 := fst (crud.create_or_update_persona utc1 srv1 d persona) in
    let p1 := snd (crud.create_or_update_persona utc1 srv1 d persona) in
    let d2 := fst (crud.create_or_update_persona utc2 srv2 d1 persona) in
    let p2 := snd (crud.create_or_update_persona utc2 srv2 d1 persona) in
    models.id p2 = models.id p1
    /\ models.created_at p2 = models.created_at p1
    /\ models.persona_text p2 = models.persona_text p1
    /\ models.preferred_times p2 = models.preferred_times p1
    /\ models.focus_duration p2 = models.focus_duration p1
    /\ models.location p2 = models.location p1
    /\ models.updated_at p2 = Some utc2
    /\ crud.get_persona d2 = Some p2
    /\ List.length (models.personas d2) = List.length (models.personas d1)
    /\ ((List.length (models.personas d) <= 1)%nat ->
        List.length (models.personas d1) = 1%nat)
    /\ models.schedules d2 = models.schedules d.
Proof.
  intros utc1 srv1 utc2 srv2 d persona.
  unfold crud.create_or_update_persona, crud.get_persona.
  destruct (models.personas d) as [|p rest] eqn:Ep; cbn;
    repeat split; try reflexivity; intro H; cbn in H; lia.
Qed.

Lemma upsert_keeps_identity utc srv d pc p :
  crud.get_persona d = Some p ->
  exists p',
    crud.get_persona (fst (crud.create_or_update_persona utc srv d pc)) = Some p'
    /\ models.id p' = models.id p
    /\ models.created_at p' = models.created_at p
    /\ List.length (models.personas (fst (crud.create_or_update_persona utc srv d pc)))
       = List.length (models.personas d).
Proof.
  unfold crud.create_or_update_persona, crud.get_persona.
  destruct (models.personas d) as [|p0 rest]; [discriminate|].
  intro H; inversion H; subst. eexists; cbn; repeat split.
Qed.

(** ** Seeding *)

Lemma seed_initial_data_run (w : World) (st : state) :
  main.seed_initial_data w st
  = match models.personas (db st) with
    | [] =>
        (Ok tt,
         mk_state
           (fst (crud.create_or_update_persona (utcnow w) (server_now w) (db st)
                   main.DEFAULT_PERSONA))
           (log st))
    | _ :: _ => (Ok tt, st)
    end.
Proof.
  unfold main.seed_initial_data, bind, query, commit, ret.
  destruct (models.personas (db st)) as [|p rest] eqn:Ep; cbn [List.length Nat.eqb].
  - now destruct (crud.create_or_update_persona _ _ _ _).
  - reflexivity.
Qed.

(** X10.  [seed_initial_data] never fails and leaves a persona in the store.
    On an empty table it writes the default persona as the only row; on a
    table that has a row it changes nothing at all.  Running it
    again, at any later time, changes nothing; it never touches the
    schedules and calls no external service. *)
Theorem seed_initial_data_seeds_once :
  forall (w w' : World) (st : state),
    let st' := snd (main.seed_initial_data w st) in
    fst (main.seed_initial_data w st) = Ok tt
    /\ crud.get_persona (db st') <> None
    /\ (models.personas (db st) <> [] -> st' = st)
    /\ (models.personas (db st) = [] ->
        exists p,
          models.personas (db st') = [p]
          /\ models.persona_text p = schemas.persona_text main.DEFAULT_PERSONA
          /\ models.preferred_times p = Some ["morning"; "evening"]%string
          /\ models.focus_duration p = Some "1hour"%string
          /\ models.location p = Some "Seoul, Korea"%string
          /\ models.updated_at p = None)
    /\ snd (main.seed_initial_data w' st') = st'
    /\ models.schedules (db st') = models.schedules (db st)
    /\ log st' = log st.
Proof.
  intros w w' st st'; subst st'.
  rewrite !seed_initial_data_run.
  destruct (models.personas (db st)) as [|p rest] eqn:Ep.
  - cbn [fst snd db log].
    unfold crud.create_or_update_persona, crud.get_persona; rewrite Ep.
    cbn [fst snd models.personas models.schedules].
    split; [reflexivity|]. split; [discriminate|]. split; [congruence|].
    split; [|repeat split].
    intros _. eexists. split; [reflexivity|]. repeat split.
  - cbn [fst snd]. rewrite Ep.
    unfold crud.get_persona; rewrite Ep.
    repeat split; try reflexivity; try discriminate.
Qed.

(** ** The routes *)

Lemma answer_run {A : Type} (wrap : A -> main.response) (m : M A) (st : state) :
  main.answer wrap m st
  = (match fst (m st) with Ok a => Ok (wrap a) | Raise e => Raise e end,
     snd (m st)).
Proof.
  unfold main.answer, bind, ret. now destruct (m st) as [[a|e] st'].
Qed.

Lemma commit_run {A : Type} (f : models.Session -> models.Session * A) (st : state) :
  commit f st = (Ok (snd (f (db st))), mk_state (fst (f (db st))) (log st)).
Proof. unfold commit. now destruct (f (db st)). Qed.

Lemma found_run (r : option models.Schedule) (st : state) :
  main.found r st
  = match r with
    | Some s => (Ok s, st)
    | None => (Raise main.SCHEDULE_NOT_FOUND, st)
    end.
Proof. now destruct r. Qed.

Lemma run_persona_update_agent_effect (w : World) (st : state) :
  models.schedules (db (snd (run_persona_update_agent w st)))
  = models.schedules (db st)
  /\ (db (snd (run_persona_update_agent w st)) = db st
      \/ exists pc,
           db (snd (run_persona_update_agent w st))
           = fst (crud.create_or_update_persona (utcnow w) (server_now w) (db st) pc))
  /\ (forall e, fst (run_persona_update_agent w st) = Raise e ->
                db (snd (run_persona_update_agent w st)) = db st).
Proof.
  destruct (crud.get_persona (db st)) as [p|] eqn:Hp;
    [|rewrite run_persona_update_agent_no_persona by exact Hp; cbn; auto].
  rewrite (run_persona_update_agent_steps w st p Hp).
  destruct (PyStr.truthy (gemini_api_key w)); [|cbn; auto].
  destruct (generate_content w _ _) as [text|e]; [|cbn; auto].
  pose proof (create_or_update_persona_stored (utcnow w) (server_now w) (db st)
                (updated_persona_data p text)) as Hst.
  destruct (crud.create_or_update_persona _ _ _ _) as [d' p'] eqn:Eu.
  cbn [fst snd db]. destruct Hst as (_ & Hs & _).
  split; [exact Hs|]. split; [|discriminate].
  right. exists (updated_persona_data p text). now rewrite Eu.
Qed.

(** What one request does to the store and to the call log. *)
Lemma dispatch_effect (w : World) (r : main.request) (st : state) :
  store_step (db st) (db (snd (main.dispatch w r st)))
  /\ (read_only r = true -> db (snd (main.dispatch w r st)) = db st)
  /\ (persona_route r = true ->
      models.schedules (db (snd (main.dispatch w r st))) = models.schedules (db st))
  /\ (schedule_route r = true ->
      models.personas (db (snd (main.dispatch w r st))) = models.personas (db st))
  /\ (forall e, fst (main.dispatch w r st) = Raise e ->
                db (snd (main.dispatch w r st)) = db st)
  /\ (agent_route r = false -> log (snd (main.dispatch w r st)) = log st).
Proof.
  destruct r; unfold main.dispatch; rewrite answer_run; cbn [fst snd].
  - (* POST /api/persona *)
    unfold create_or_update_persona_endpoint. rewrite commit_run. cbn [fst snd db log].
    pose proof (create_or_update_persona_stored (utcnow w) (server_now w) (db st)
                  persona) as Hst.
    destruct (crud.create_or_update_persona _ _ _ _) as [d' p'] eqn:Eu.
    cbn [fst snd] in *. destruct Hst as (_ & Hs & _).
    repeat split; intros; try discriminate; try assumption.
    replace d' with (fst (crud.create_or_update_persona (utcnow w) (server_now w)
                            (db st) persona)) by now rewrite Eu.
    constructor.
  - (* GET /api/persona *)
    unfold main.read_persona_endpoint, bind, query, raise, ret.
    destruct (crud.get_persona (db st)); cbn [fst snd];
      repeat split; intros; auto; try discriminate; constructor.
  - (* POST /api/persona/update-from-history *)
    unfold main.update_persona_from_history_endpoint.
    destruct (run_persona_update_agent_effect w st) as (Hs & Hd & He).
    split; [destruct Hd as [->|[pc ->]]; constructor|].
    split; [discriminate|]. split; [intros _; exact Hs|].
    split; [discriminate|]. split; [|discriminate].
    intros e Hr. destruct (fst (run_persona_update_agent w st)) eqn:E;
      [discriminate|]. now apply (He e0).
  - (* POST /api/schedules *)
    unfold main.create_schedule_endpoint. rewrite commit_run. cbn [fst snd db log].
    repeat split; intros; try discriminate; auto; constructor.
  - (* POST /api/schedules/bulk-create *)
    unfold main.bulk_create_schedules_endpoint, bind, lift.
    destruct (main.bulk_items (schemas.bulk_schedules payload)) as [items|e0];
      [|cbn [fst snd]; repeat split; intros; auto; try discriminate; constructor].
    rewrite commit_run. cbn [fst snd db log].
    repeat split; intros; try discriminate; try constructor.
    unfold crud.bulk_create_schedules.
    now destruct (crud.add_all _ _ _).
  - (* GET /api/schedules *)
    unfold main.read_schedules_endpoint, query. cbn [fst snd].
    repeat split; intros; auto; try discriminate; constructor.
  - (* PUT /api/schedules/{id} *)
    unfold main.update_schedule_endpoint, bind. rewrite commit_run, found_run.
    unfold crud.update_schedule.
    destruct (crud.get_schedule (db st) schedule_id) eqn:Eg; cbn [fst snd db log].
    + repeat split; intros; try discriminate; auto.
      replace (models.mk_Session _ _)
        with (fst (crud.update_schedule (db st) schedule_id schedule))
        by (unfold crud.update_schedule; now rewrite Eg).
      constructor.
    + repeat split; intros; auto; try discriminate; constructor.
  - (* PUT /api/schedules/{id}/status *)
    unfold main.update_schedule_status_endpoint, bind. rewrite commit_run, found_run.
    unfold crud.update_schedule_status.
    destruct (crud.get_schedule (db st) schedule_id) eqn:Eg; cbn [fst snd db log].
    + repeat split; intros; try discriminate; auto.
      replace (models.mk_Session _ _)
        with (fst (crud.update_schedule_status (db st) schedule_id
                     (schemas.status_is_completed status)))
        by (unfold crud.update_schedule_status; now rewrite Eg).
      constructor.
    + repeat split; intros; auto; try discriminate; constructor.
  - (* DELETE /api/schedules/{id} *)
    unfold main.delete_schedule_endpoint, bind. rewrite commit_run, found_run.
    unfold crud.delete_schedule.
    destruct (crud.get_schedule (db st) schedule_id) eqn:Eg; cbn [fst snd db log].
    + repeat split; intros; try discriminate; auto.
      replace (models.mk_Session _ _)
        with (fst (crud.delete_schedule (db st) schedule_id))
        by (unfold crud.delete_schedule; now rewrite Eg).
      constructor.
    + repeat split; intros; auto; try discriminate; constructor.
  - (* POST /api/schedules/recommend *)
    unfold main.recommend_schedules_endpoint.
    rewrite run_recommendation_agent_db.
    repeat split; intros; try discriminate; auto; constructor.
  - (* GET / *)
    unfold main.read_root, ret. cbn [fst snd].
    repeat split; intros; auto; try discriminate; constructor.
Qed.

(** X11.  Each route touches only its own part of the store.  The four
    reading routes (persona, schedules in a range, recommendation, root)
    leave the store as it was; the two persona routes leave the schedules as
    they were; the five schedule-writing routes leave the personas as they
    were; a request answered with an error has written nothing; and only the
    two agent routes (recommendation, persona update) add to the call log of
    searches and model requests. *)
Theorem routes_touch_only_their_table :
  forall (w : World) (r : main.request) (st : state),
    (read_only r = true -> db (snd (main.dispatch w r st)) = db st)
    /\ (persona_route r = true ->
        models.schedules (db (snd (main.dispatch w r st)))
        = models.schedules (db st))
    /\ (schedule_route r = true ->
        models.personas (db (snd (main.dispatch w r st)))
        = models.personas (db st))
    /\ (forall e, fst (main.dispatch w r st) = Raise e ->
                  db (snd (main.dispatch w r st)) = db st)
    /\ (agent_route r = false -> log (snd (main.dispatch w r st)) = log st).
Proof. intros w r st. apply (dispatch_effect w r st). Qed.

Lemma serve_preserves (P : models.Session -> Prop) :
  (forall d d', store_step d d' -> P d -> P d') ->
  forall requests st, P (db st) -> P (db (main.serve requests st)).
Proof.
  intros Hstep requests.
  induction requests as [|[w r] rest IH]; intros st H; cbn [main.serve];
    [exact H|].
  apply IH. apply (Hstep (db st)); [|exact H].
  apply (dispatch_effect w r st).
Qed.

Lemma store_step_keeps_persona d d' p :
  store_step d d' ->
  (exists q, crud.get_persona d = Some q
             /\ models.id q = models.id p
             /\ models.created_at q = models.created_at p) ->
  exists q, crud.get_persona d' = Some q
            /\ models.id q = models.id p
            /\ models.created_at q = models.created_at p.
Proof.
  intros Hstep (q & Hq & Hid & Hc).
  assert (Hsame : forall d2, models.personas d2 = models.personas d ->
            exists q, crud.get_persona d2 = Some q
                      /\ models.id q = models.id p
                      /\ models.created_at q = models.created_at p).
  { intros d2 E. exists q. unfold crud.get_persona in *. now rewrite E. }
  destruct Hstep as [|utc srv pc|srv sc|srv items|k sc|k b|k].
  - now exists q.
  - destruct (upsert_keeps_identity utc srv d pc q Hq)
      as (q' & Hq' & Hid' & Hc' & _).
    exists q'. repeat split; congruence.
  - apply Hsame. reflexivity.
  - apply Hsame. unfold crud.bulk_create_schedules.
    now destruct (crud.add_all _ _ _).
  - apply Hsame. unfold crud.update_schedule.
    now destruct (crud.get_schedule d k).
  - apply Hsame. unfold crud.update_schedule_status.
    now destruct (crud.get_schedule d k).
  - apply Hsame. unfold crud.delete_schedule.
    now destruct (crud.get_schedule d k).
Qed.

Lemma serve_keeps_persona requests (st : state) p :
  crud.get_persona (db st) = Some p ->
  exists q,
    crud.get_persona (db (main.serve requests st)) = Some q
    /\ models.id q = models.id p
    /\ models.created_at q = models.created_at p.
Proof.
  intro Hp.
  apply (serve_preserves
           (fun d => exists q, crud.get_persona d = Some q
                               /\ models.id q = models.id p
                               /\ models.created_at q = models.created_at p)).
  - intros d d' Hstep H. now apply (store_step_keeps_persona d d' p).
  - now exists p.
Qed.

(** X12.  No sequence of requests removes or replaces the persona: if the
    store holds a persona, then after any requests it still holds one, with
    the same key and the same creation time. *)
Theorem persona_identity_is_stable :
  forall (requests : list (World * main.request)) (st : state)
         (p : models.Persona),
    crud.get_persona (db st) = Some p ->
    exists q,
      crud.get_persona (db (main.serve requests st)) = Some q
      /\ models.id q = models.id p
      /\ models.created_at q = models.created_at p.
Proof. intros requests st p. apply serve_keeps_persona. Qed.

Lemma persona_identity_is_stable_witness :
  crud.get_persona (db (mk_state Examples.store [])) = Some Examples.seoul_persona
  /\ exists q,
       crud.get_persona
         (db (main.serve
                [(Examples.world, main.PostPersona Examples.blank_persona_request);
                 (Examples.world_with_new_persona, main.PostPersonaUpdateFromHistory);
                 (Examples.world, main.DeleteSchedule 1)]
                (mk_state Examples.store [])))
       = Some q
       /\ models.id q = models.id Examples.seoul_persona
       /\ models.created_at q = models.created_at Examples.seoul_persona.
Proof.
  split; [reflexivity|].
  apply (persona_identity_is_stable _ (mk_state Examples.store [])
           Examples.seoul_persona).
  reflexivity.
Defined.

Lemma recommendation_with_persona (w : World) req (st : state) p :
  crud.get_persona (db st) = Some p ->
  fst (run_recommendation_agent w req st) <> Raise PERSONA_NOT_SET.
Proof.
  intro Hp.
  destruct (fromisoformat (schemas.start_date req)) as [sd|] eqn:Hs;
    [|rewrite (run_recommendation_agent_bad_dates w req st p); auto; discriminate].
  destruct (fromisoformat (schemas.end_date req)) as [ed|] eqn:He;
    [|rewrite (run_recommendation_agent_bad_dates w req st p); auto; discriminate].
  destruct (run_recommendation_agent_steps w req st p sd ed Hp Hs He)
    as (h & wt & _ & ->).
  destruct (PyStr.truthy (gemini_api_key w)); cbn [fst]; [|discriminate].
  destruct (generate_content w _ _) as [text|e]; [|discriminate].
  destruct (parse_response text); discriminate.
Qed.

Lemma persona_update_with_persona (w : World) (st : state) p :
  crud.get_persona (db st) = Some p ->
  fst (run_persona_update_agent w st) <> Raise PERSONA_NOT_SET.
Proof.
  intro Hp. rewrite (run_persona_update_agent_steps w st p Hp).
  destruct (PyStr.truthy (gemini_api_key w)); cbn [fst]; [|discriminate].
  destruct (generate_content w _ _) as [text|e]; [|discriminate].
  destruct (crud.create_or_update_persona _ _ _ _); discriminate.
Qed.

(** X13.  Once the process has started, a persona is always there: whatever
    the tables held at start-up and whatever requests were served since, the
    persona route answers with a persona, and neither the recommendation nor
    the persona update fails with "Persona not set". *)
Theorem persona_is_set_after_startup :
  forall (w0 : World) (d : models.Session)
         (requests : list (World * main.request)),
    let st := main.serve requests (main.startup w0 d) in
    exists p,
      crud.get_persona (db st) = Some p
      /\ fst (main.read_persona_endpoint st) = Ok p
      /\ (forall w req,
            fst (main.recommend_schedules_endpoint w req st) <> Raise PERSONA_NOT_SET)
      /\ (forall w,
            fst (main.update_persona_from_history_endpoint w st)
            <> Raise PERSONA_NOT_SET).
Proof.
  intros w0 d requests st.
  assert (Hstart : exists p0, crud.get_persona (db (main.startup w0 d)) = Some p0).
  { unfold main.startup. rewrite seed_initial_data_run. cbn [db].
    unfold crud.create_or_update_persona, crud.get_persona.
    destruct (models.personas d) as [|p rest] eqn:Ep; cbn; [eauto|].
    rewrite Ep. eauto. }
  destruct Hstart as (p0 & Hp0).
  destruct (serve_keeps_persona requests (main.startup w0 d) p0 Hp0)
    as (p & Hp & _).
  fold st in Hp.
  exists p. split; [exact Hp|]. split.
  - unfold main.read_persona_endpoint, bind, query, ret. now rewrite Hp.
  - split.
    + intros w req. now apply recommendation_with_persona with (p := p).
    + intro w. now apply persona_update_with_persona with (p := p).
Qed.

Lemma store_step_keeps_keys_unique d d' :
  store_step d d' -> unique_ids d -> unique_ids d'.
Proof.
  intros Hstep Hu.
  destruct Hstep as [|utc srv pc|srv sc|srv items|k sc|k b|k].
  - exact Hu.
  - unfold unique_ids, schedule_ids in *.
    pose proof (create_or_update_persona_stored utc srv d pc) as H.
    destruct (crud.create_or_update_persona utc srv d pc) as [d1 p1].
    cbn [fst]. destruct H as (_ & -> & _). exact Hu.
  - now apply (crud_writes_keep_keys_unique srv d Hu).
  - now apply (crud_writes_keep_keys_unique srv d Hu).
  - now apply (crud_writes_keep_keys_unique (mk_datetime 0 0 0 0 0 0 0) d Hu).
  - now apply (crud_writes_keep_keys_unique (mk_datetime 0 0 0 0 0 0 0) d Hu).
  - now apply (crud_writes_keep_keys_unique (mk_datetime 0 0 0 0 0 0 0) d Hu).
Qed.

(** X14.  The keys of the schedules stay distinct: if no key occurs twice in
    the table, then no sequence of requests (creations, bulk creations,
    updates, status changes, deletions, and all the others) makes one occur
    twice, so a key always names at most one schedule. *)
Theorem schedule_keys_stay_unique :
  forall (requests : list (World * main.request)) (st : state),
    unique_ids (db st) ->
    unique_ids (db (main.serve requests st)).
Proof.
  intros requests st Hu.
  apply (serve_preserves unique_ids); [|exact Hu].
  intros d d' Hstep H. now apply (store_step_keeps_keys_unique d d').
Qed.

Lemma schedule_keys_stay_unique_witness :
  unique_ids (db (mk_state Examples.store []))
  /\ unique_ids
       (db (main.serve
              [(Examples.world, main.PostSchedule Scenarios.gym);
               (Examples.world, main.DeleteSchedule 2);
               (Examples.world,
                main.PostSchedulesBulkCreate
                  (schemas.mk_ScheduleBulkCreate Scenarios.two_inputs))]
              (mk_state Examples.store []))).
Proof.
  split; [exact example_store_unique|].
  apply (schedule_keys_stay_unique _ (mk_state Examples.store [])).
  exact example_store_unique.
Defined.

(** ** The bulk route *)







(** ** Unknown keys *)

Lemma state_eta (st : state) : mk_state (db st) (log st) = st.
Proof. now destruct st. Qed.

(** X16.  The three routes that address a schedule by key answer the 404
    error "Schedule not found" exactly when no row has the key, and then
    leave the state as it was; they raise no other error.  The persona route
    answers the 404 error "Persona not found" exactly when the table of
    personas is empty. *)
Theorem unknown_key_is_answered_404 :
  forall (k : Z) (schedule : schemas.ScheduleCreate)
         (status : schemas.ScheduleStatusUpdate) (st : state),
    let missing := crud.get_schedule (db st) k = None in
    (missing <-> main.update_schedule_endpoint k schedule st
                 = (Raise main.SCHEDULE_NOT_FOUND, st))
    /\ (missing <-> main.update_schedule_status_endpoint k status st
                    = (Raise main.SCHEDULE_NOT_FOUND, st))
    /\ (missing <-> main.delete_schedule_endpoint k st
                    = (Raise main.SCHEDULE_NOT_FOUND, st))
    /\ (forall e,
          fst (main.update_schedule_endpoint k schedule st) = Raise e
          \/ fst (main.update_schedule_status_endpoint k status st) = Raise e
          \/ fst (main.delete_schedule_endpoint k st) = Raise e ->
          e = main.SCHEDULE_NOT_FOUND /\ missing)
    /\ (crud.get_persona (db st) = None
        <-> main.read_persona_endpoint st = (Raise main.PERSONA_NOT_FOUND, st)).
Proof.
  intros k schedule status st missing; subst missing.
  unfold main.update_schedule_endpoint, main.update_schedule_status_endpoint,
    main.delete_schedule_endpoint, bind.
  rewrite !commit_run, !found_run.
  unfold crud.update_schedule, crud.update_schedule_status, crud.delete_schedule.
  destruct (crud.get_schedule (db st) k) as [s|] eqn:Eg; cbn [fst snd].
  - split; [split; discriminate|]. split; [split; discriminate|].
    split; [split; discriminate|]. split.
    + intros e [H|[H|H]]; discriminate.
    + unfold main.read_persona_endpoint, bind, query, raise, ret.
      destruct (crud.get_persona (db st)); split; congruence.
  - rewrite state_eta.
    split; [split; reflexivity|]. split; [split; reflexivity|].
    split; [split; reflexivity|]. split.
    + intros e [H|[H|H]]; inversion H; split; reflexivity.
    + unfold main.read_persona_endpoint, bind, query, raise, ret.
      destruct (crud.get_persona (db st)); split; congruence.
Qed.

(** ** What a recommendation run calls *)

Lemma count_app p l1 l2 : count p (l1 ++ l2) = (count p l1 + count p l2)%nat.
Proof. unfold count. now rewrite filter_app, length_app. Qed.

Lemma context_events_counts (w : World) p req sd :
  (count is_holiday_call (context_events w p req sd) <= 1)%nat
  /\ (count is_weather_call (context_events w p req sd)
      <= count is_holiday_call (context_events w p req sd))%nat
  /\ (count is_search_call (context_events w p req sd)
      <= count is_holiday_call (context_events w p req sd)
         + count is_weather_call (context_events w p req sd))%nat
  /\ (count is_cse_request (context_events w p req sd)
      <= count is_search_call (context_events w p req sd))%nat
  /\ count is_model_request (context_events w p req sd) = 0%nat.
Proof.
  unfold context_events, weather_events, search_events.
  destruct (models.location p) as [[|c r]|]; [cbn; lia| |cbn; lia].
  destruct (configured w), (is_outdoor_request (schemas.prompt req)),
    (10 <? sub_days sd (now w)); cbn; lia.
Qed.

(** The log entries of a recommendation run. *)
Lemma run_recommendation_agent_log (w : World) req (st : state) :
  exists evs,
    log (snd (run_recommendation_agent w req st)) = log st ++ evs
    /\ (evs = []
        \/ exists p sd prompt,
             crud.get_persona (db st) = Some p
             /\ fromisoformat (schemas.start_date req) = Some sd
             /\ evs = context_events w p req sd
                      ++ (if PyStr.truthy (gemini_api_key w)
                          then [ModelRequest "gemini-2.5-flash" prompt] else []))
    /\ (forall r, fst (run_recommendation_agent w req st) = Ok r ->
                  count is_model_request evs = 1%nat).
Proof.
  destruct (crud.get_persona (db st)) as [p|] eqn:Hp.
  2:{ rewrite run_recommendation_agent_no_persona by exact Hp.
      exists []. rewrite app_nil_r. repeat split; auto; discriminate. }
  destruct (fromisoformat (schemas.start_date req)) as [sd|] eqn:Hs.
  2:{ rewrite (run_recommendation_agent_bad_dates w req st p) by auto.
      exists []. rewrite app_nil_r. repeat split; auto; discriminate. }
  destruct (fromisoformat (schemas.end_date req)) as [ed|] eqn:He.
  2:{ rewrite (run_recommendation_agent_bad_dates w req st p) by auto.
      exists []. rewrite app_nil_r. repeat split; auto; discriminate. }
  destruct (run_recommendation_agent_steps w req st p sd ed Hp Hs He)
    as (h & wt & _ & ->).
  eexists. split; [|split].
  2:{ right. exists p, sd. eexists. split; [reflexivity|]. split; reflexivity. }
  - destruct (PyStr.truthy (gemini_api_key w)); cbn [snd log];
      [reflexivity | now rewrite app_nil_r].
  - intros r Hr. rewrite count_app.
    destruct (context_events_counts w p req sd) as (_ & _ & _ & _ & ->).
    destruct (PyStr.truthy (gemini_api_key w)); [reflexivity | discriminate].
Qed.

(** X17.  One recommendation run calls the holiday tool at most once, the
    weather tool at most once and never without the holiday tool, the search
    tool only through these two, the provider at most once per search, and
    the model at most once; a run that returns a recommendation has asked the
    model exactly once. *)
Theorem recommendation_calls_are_bounded :
  forall (w : World) (req : schemas.AIRecommendationRequest) (st : state),
    exists evs,
      log (snd (run_recommendation_agent w req st)) = log st ++ evs
      /\ (count is_holiday_call evs <= 1)%nat
      /\ (count is_weather_call evs <= count is_holiday_call evs)%nat
      /\ (count is_search_call evs
          <= count is_holiday_call evs + count is_weather_call evs)%nat
      /\ (count is_cse_request evs <= count is_search_call evs)%nat
      /\ (count is_model_request evs <= 1)%nat
      /\ (forall r, fst (run_recommendation_agent w req st) = Ok r ->
                    count is_model_request evs = 1%nat).
Proof.
  intros w req st.
  destruct (run_recommendation_agent_log w req st) as (evs & Hlog & Hevs & Hok).
  exists evs. split; [exact Hlog|].
  destruct Hevs as [->|(p & sd & prompt & _ & _ & ->)].
  - cbn. repeat split; try lia. intros r Hr. now apply (Hok r).
  - rewrite !count_app.
    destruct (context_events_counts w p req sd) as (H1 & H2 & H3 & H4 & H5).
    rewrite count_app in Hok.
    destruct (PyStr.truthy (gemini_api_key w)); cbn; repeat split; try lia;
      exact Hok.
Qed.

(** ** The order of the checks *)





(** ** The persona update, whatever happens *)

(** X20.  A persona-update run never calls a search tool and asks the model
    at most once; it never touches the schedules.  It ends in one of four
    ways: the updated persona, now the one in the store; the 400 error
    "Persona not set"; the 500 error for the missing key; or the 500 error
    wrapping the failure of the model.  In the three failing cases the store
    is as it was, and in the first two of them nothing was asked of the
    model. *)
Theorem persona_update_outcomes :
  forall (w : World) (st : state),
    let st' := snd (run_persona_update_agent w st) in
    models.schedules (db st') = models.schedules (db st)
    /\ exists evs,
         log st' = log st ++ evs
         /\ (evs = [] \/ exists prompt, evs = [ModelRequest "gemini-2.5-flash" prompt])
         /\ match fst (run_persona_update_agent w st) with
            | Ok p' => crud.get_persona (db st') = Some p' /\ evs <> []
            | Raise e =>
                db st' = db st
                /\ ((e = PERSONA_NOT_SET /\ evs = [])
                    \/ (e = GEMINI_NOT_CONFIGURED /\ evs = [])
                    \/ exists cause, e = PERSONA_UPDATE_FAILED cause /\ evs <> [])
            end.
Proof.
  intros w st st'; subst st'.
  destruct (crud.get_persona (db st)) as [p|] eqn:Hp.
  2:{ rewrite run_persona_update_agent_no_persona by exact Hp. cbn [fst snd].
      split; [reflexivity|]. exists []. rewrite app_nil_r. auto 7. }
  rewrite (run_persona_update_agent_steps w st p Hp).
  destruct (PyStr.truthy (gemini_api_key w)).
  2:{ cbn [fst snd]. split; [reflexivity|]. exists []. rewrite app_nil_r. auto 7. }
  destruct (generate_content w _ _) as [text|e].
  - pose proof (create_or_update_persona_stored (utcnow w) (server_now w) (db st)
                  (updated_persona_data p text)) as Hst.
    destruct (crud.create_or_update_persona _ _ _ _) as [d' p'].
    cbn [fst snd db log]. destruct Hst as (Hg & Hs & _).
    split; [exact Hs|]. eexists. split; [reflexivity|].
    split; [right; eauto|]. split; [exact Hg | discriminate].
  - cbn [fst snd db log]. split; [reflexivity|]. eexists. split; [reflexivity|].
    split; [right; eauto|]. split; [reflexivity|].
    right; right. exists e. split; [reflexivity | discriminate].
Qed.

(** ** Fences, keywords and the prompt *)

Section Text.

Local Open Scope string_scope.

Lemma append_assoc_s (a b c : string) : (a ++ b) ++ c = a ++ (b ++ c).
Proof. induction a as [|x a IH]; cbn; [reflexivity | now rewrite IH]. Qed.


Lemma prefix_nil (s : string) : prefix "" s = true.
Proof. now destruct s. Qed.

Lemma prefix_app_self (a u : string) : prefix a (a ++ u) = true.
Proof.
  induction a as [|x a IH]; [apply prefix_nil|].
  cbn. destruct (ascii_dec x x); [exact IH | contradiction].
Qed.














End Text.

Section Fences.

Local Open Scope string_scope.






End Fences.



Section Keywords.

Local Open Scope string_scope.

Lemma contains_here x b : PyStr.contains x (x ++ b) = true.
Proof.
  destruct x as [|c x]; [now destruct b|].
  change (String c x ++ b) with (String c (x ++ b)).
  cbn [PyStr.contains].
  change (String c (x ++ b)) with (String c x ++ b).
  now rewrite prefix_app_self.
Qed.

Lemma contains_later x a r :
  PyStr.contains x r = true -> PyStr.contains x (a ++ r) = true.
Proof.
  intro H. induction a as [|c a IH]; [exact H|].
  change (String c a ++ r) with (String c (a ++ r)).
  cbn [PyStr.contains]. rewrite IH. apply orb_true_r.
Qed.







Lemma contains_here3 x y z r :
  PyStr.contains (x ++ y ++ z) (x ++ y ++ z ++ r) = true.
Proof.
  replace (x ++ y ++ z ++ r) with ((x ++ y ++ z) ++ r)
    by (now rewrite !append_assoc_s).
  apply contains_here.
Qed.

(** X23.  The prompt of a recommendation carries its inputs verbatim,
    without escaping: the persona text, the holiday text, the weather text,
    the listing of the existing schedules, the goal between double quotes,
    and the two dates as they were sent. *)
Theorem prompt_carries_its_inputs_verbatim :
  forall (p : models.Persona) (existing : list models.Schedule)
         (req : schemas.AIRecommendationRequest) (holidays weather : string),
    let prompt := _build_final_prompt p existing req holidays weather in
    PyStr.contains (models.persona_text p) prompt = true
    /\ PyStr.contains holidays prompt = true
    /\ PyStr.contains weather prompt = true
    /\ PyStr.contains (_format_schedules_for_prompt existing) prompt = true
    /\ PyStr.contains (PyStr.dq ++ schemas.prompt req ++ PyStr.dq) prompt = true
    /\ PyStr.contains (schemas.start_date req ++ " to " ++ schemas.end_date req)
         prompt = true.
Proof.
  intros p existing req holidays weather prompt; subst prompt.
  unfold _build_final_prompt, FINAL_RECOMMENDATION_PROMPT_TEMPLATE,
    _format_persona_for_prompt.
  cbv zeta.
  repeat split.
  - rewrite !append_assoc_s.
    do 2 apply contains_later. apply contains_here.
  - do 3 apply contains_later. apply contains_here.
  - do 5 apply contains_later. apply contains_here.
  - do 7 apply contains_later. apply contains_here.
  - repeat first [apply contains_here3 | apply contains_later].
  - repeat first [apply contains_here3 | apply contains_later].
Qed.

End Keywords.

(** ** The two query wrappers *)



(** ** The snippets of a search *)



